(** * Assessment platform backend: scoring, access gate and record store

    A shallow embedding of [backend/server.ts] (the Express routes) and of
    [backend/database.ts] (the [JSONDatabase] class), with the properties
    of the scoring-and-persistence path stated and proved over it.

    Conventions of the embedding:
    - a JavaScript value that may be [undefined] is an [option], with
      [None] for [undefined];
    - the in-memory collections, and for each of the three JSON files
      the collection that was last written to it in full, are explicit
      state ([World]), threaded through every call;
    - what a call reads from its environment (the clock, whether the
      file write succeeds) is an explicit argument ([Env]);
    - an exception is a value ([Thrown]); the [try]/[catch] of each route
      turns it into a 500 response. *)

From Stdlib Require Import ZArith List Ascii String Lia SpecFloat.
From stdpp Require Import base option list strings gmap pretty.

Local Open Scope string_scope.
Local Open Scope Z_scope.

(* ===================================================================== *)
(** ** JavaScript primitives used by the routes *)
(* ===================================================================== *)

Module JS.

(** *** Numbers: IEEE 754 binary64 *)

Definition prec : Z := 53.
Definition emax : Z := 1024.

(** The Number with the value of an integer (exact below 2^53). *)
Definition of_Z (z : Z) : spec_float := binary_normalize prec emax z 0 false.

(** [x / y] and [x * y] on Numbers. *)
Definition div (x y : spec_float) : spec_float := SFdiv prec emax x y.
Definition mul (x y : spec_float) : spec_float := SFmul prec emax x y.

(** [Math.round(x)]: the integer closest to [x], ties towards +infinity,
    that is, the floor of [x + 1/2] computed without rounding error.
    [Math.round] returns [NaN] and the infinities unchanged; they have no
    integer value and are sent to 0 here. The routes round the percentage
    of two list lengths only. *)
Definition Math_round (x : spec_float) : Z :=
  match x with
  | S754_finite s m e =>
      let n := cond_Zopp s (Zpos m) in
      if 0 <=? e then n * 2 ^ e
      else (2 * n + 2 ^ (- e)) / 2 ^ (1 - e)
  | _ => 0
  end.

(** *** Strings *)

(** White space and line terminators among the code units below 256:
    TAB, LF, VT, FF, CR, SPACE and NO-BREAK SPACE. *)
Definition is_white (c : ascii) : bool :=
  match c with
  | "009" | "010" | "011" | "012" | "013" | " " | "160" => true
  | _ => false
  end%char.

Fixpoint trimStart (s : string) : string :=
  match s with
  | EmptyString => EmptyString
  | String c s' => if is_white c then trimStart s' else s
  end.

Fixpoint trimEnd (s : string) : string :=
  match s with
  | EmptyString => EmptyString
  | String c s' =>
      match trimEnd s' with
      | EmptyString => if is_white c then EmptyString else String c EmptyString
      | t => String c t
      end
  end.

(** [s.trim()] *)
Definition trim (s : string) : string := trimEnd (trimStart s).

(** *** Truthiness and the [||] default *)

Definition truthy_string (s : string) : bool := negb (String.eqb s EmptyString).
Definition truthy_number (n : Z) : bool := negb (n =? 0).

(** [x || d] where [x] is a string or [undefined] *)
Definition or_string (x : option string) (d : string) : string :=
  match x with
  | Some s => if truthy_string s then s else d
  | None => d
  end.

(** [x || d] where [x] is a number or [undefined] *)
Definition or_number (x : option Z) (d : Z) : Z :=
  match x with
  | Some n => if truthy_number n then n else d
  | None => d
  end.

(** [x || d] where [x] is an object or array (always truthy) or
    [undefined] *)
Definition or_object {A} (x : option A) (d : A) : A := default d x.

(** [x || undefined] where [x] is a string or [undefined] *)
Definition or_undefined (x : option string) : option string :=
  match x with
  | Some s => if truthy_string s then Some s else None
  | None => None
  end.

(** [x === y] on values that are a number or [undefined]:
    [undefined === undefined] holds. *)
Definition strict_eq (x y : option Z) : bool := bool_decide (x = y).

(** [n.toString()] for an integer Number: its decimal numeral. *)
Definition toString (n : Z) : string := pretty n.

(** [x + y] on Numbers. *)
Definition add (x y : spec_float) : spec_float := SFadd prec emax x y.

End JS.


(* ===================================================================== *)
(** ** Data model ([backend/types.ts]) *)
(* ===================================================================== *)

Inductive Difficulty := easy | medium | hard.

(** A stored question. The five authored fields are optional here although
    [types.ts] declares them required: the update route can store
    [undefined] in them (see [put_challenge]). *)
Record Question := mkQuestion {
  q_id : string;
  q_question : option string;
  q_options : option (list string);
  q_correctAnswer : option Z;
  q_difficulty : option Difficulty;
  q_category : option string;
  q_createdAt : string;
  q_updatedAt : option string
}.

Record Assessment := mkAssessment {
  a_id : string;
  a_title : string;
  a_description : string;
  a_selectedChallenges : list string;
  a_timeLimit : Z;
  a_passingScore : Z;
  a_password : option string;
  a_createdAt : string;
  a_updatedAt : option string
}.

Record Submission := mkSubmission {
  s_id : string;
  s_assessmentId : string;
  s_candidateEmail : string;
  s_answers : gmap string Z;
  s_score : Z;
  s_correctCount : nat;
  s_totalQuestions : nat;
  s_passed : bool;
  s_submittedAt : string
}.

(** [Omit<Question, 'id' | 'createdAt'>], as the create route builds it. *)
Record QuestionData := mkQuestionData {
  qd_question : string;
  qd_options : list string;
  qd_correctAnswer : Z;
  qd_difficulty : Difficulty;
  qd_category : string
}.

(** An own property of an object: absent, or present with a value that
    may be [undefined]. *)
Inductive Own (A : Type) := Absent | Present (v : option A).
Arguments Absent {A}.
Arguments Present {A} v.

(** [Partial<Omit<Question, 'id' | 'createdAt'>>] (an [updatedAt] given
    here is overwritten by the stamp and is left out). *)
Record QuestionUpdates := mkQuestionUpdates {
  qu_question : Own string;
  qu_options : Own (list string);
  qu_correctAnswer : Own Z;
  qu_difficulty : Own Difficulty;
  qu_category : Own string
}.

(** [Omit<Assessment, 'id' | 'createdAt'>], as the create route builds it. *)
Record AssessmentData := mkAssessmentData {
  ad_title : string;
  ad_description : string;
  ad_selectedChallenges : list string;
  ad_timeLimit : Z;
  ad_passingScore : Z;
  ad_password : option string
}.

(** [Omit<Submission, 'id' | 'submittedAt'>] *)
Record SubmissionData := mkSubmissionData {
  sd_assessmentId : string;
  sd_candidateEmail : string;
  sd_answers : gmap string Z;
  sd_score : Z;
  sd_correctCount : nat;
  sd_totalQuestions : nat;
  sd_passed : bool
}.

(** Request bodies: any field may be missing. *)
Record QuestionCreateRequest := mkQuestionCreateRequest {
  body_question : option string;
  body_options : option (list string);
  body_correctAnswer : option Z;
  body_difficulty : option Difficulty;
  body_category : option string
}.

Record AssessmentCreateRequest := mkAssessmentCreateRequest {
  body_title : option string;
  body_description : option string;
  body_selectedChallenges : option (list string);
  body_timeLimit : option Z;
  body_passingScore : option Z;
  body_password : option string
}.

Record SubmissionRequest := mkSubmissionRequest {
  body_candidateEmail : option string;
  body_answers : option (gmap string Z)
}.

(* ===================================================================== *)
(** ** The record store ([backend/database.ts]) *)
(* ===================================================================== *)

(** [interface Database] *)
Record Database := mkDatabase {
  questions : list Question;
  assessments : list Assessment;
  submissions : list Submission
}.

(** The store: [this.data] and, for each of the three files, the
    collection that [saveCollection] last handed to [JSON.stringify] and
    wrote in full. A write that fails adds nothing to [files]: what the
    file itself holds after [fs.writeFileSync] has thrown (it may have
    been emptied on opening) and what a later [JSON.parse] makes of a
    file are outside the embedding. *)
Record World := mkWorld {
  data : Database;
  files : Database
}.

(** What one call reads from its environment: [Date.now()], the string of
    [new Date().toISOString()], and whether [fs.writeFileSync] succeeds. *)
Record Env := mkEnv {
  now : Z;
  iso : string;
  fs_ok : bool
}.

Inductive Result (A : Type) :=
| Returned (a : A)
| Thrown (msg : string).
Arguments Returned {A} a.
Arguments Thrown {A} msg.

(** A method of the store: reads and changes the world, returns or throws.
    The world is kept when it throws: what was pushed stays pushed. *)
Definition M (A : Type) : Type := World -> Result A * World.

#[global] Instance M_ret : MRet M := fun A a w => (Returned a, w).
#[global] Instance M_bind : MBind M := fun A B f m w =>
  match m w with
  | (Returned a, w') => f a w'
  | (Thrown msg, w') => (Thrown msg, w')
  end.

Inductive Collection := Questions | Assessments | Submissions.

Definition collection_name (c : Collection) : string :=
  match c with
  | Questions => "questions"
  | Assessments => "assessments"
  | Submissions => "submissions"
  end.

(** What [getStats] returns. *)
Record Stats := mkStats {
  st_totalQuestions : nat;
  st_totalAssessments : nat;
  st_totalSubmissions : nat;
  st_averageScore : Z;
  st_passRate : Z
}.

Module JSONDatabase.

Definition set_questions (f : list Question -> list Question) (d : Database) : Database :=
  mkDatabase (f (questions d)) (assessments d) (submissions d).
Definition set_assessments (f : list Assessment -> list Assessment) (d : Database) : Database :=
  mkDatabase (questions d) (f (assessments d)) (submissions d).
Definition set_submissions (f : list Submission -> list Submission) (d : Database) : Database :=
  mkDatabase (questions d) (assessments d) (f (submissions d)).

(** A change of [this.data]. *)
Definition modify_data (f : Database -> Database) : M unit :=
  fun w => (Returned tt, mkWorld (f (data w)) (files w)).

(** [saveCollection]: the whole collection is written to the file, or
    the write fails and the method throws; a failed write is no complete
    write, so [files] keeps the collection written before it. *)
Definition write_file (c : Collection) (d : Database) (on_disk : Database) : Database :=
  match c with
  | Questions => set_questions (fun _ => questions d) on_disk
  | Assessments => set_assessments (fun _ => assessments d) on_disk
  | Submissions => set_submissions (fun _ => submissions d) on_disk
  end.

Definition saveCollection (e : Env) (c : Collection) : M unit :=
  fun w =>
    if fs_ok e
    then (Returned tt, mkWorld (data w) (write_file c (data w) (files w)))
    else (Thrown ("Failed to save " +:+ collection_name c), w).

(** *** Questions *)

Definition getQuestions (d : Database) : list Question := questions d.

Definition getQuestion (id : string) (d : Database) : option Question :=
  find (fun q => bool_decide (q_id q = id)) (questions d).

(** [{ ...question, id: Date.now().toString(), createdAt: ... }] *)
Definition newQuestion (e : Env) (question : QuestionData) : Question :=
  {| q_id := JS.toString (now e);
     q_question := Some (qd_question question);
     q_options := Some (qd_options question);
     q_correctAnswer := Some (qd_correctAnswer question);
     q_difficulty := Some (qd_difficulty question);
     q_category := Some (qd_category question);
     q_createdAt := iso e;
     q_updatedAt := None |}.

Definition createQuestion (e : Env) (question : QuestionData) : M Question :=
  modify_data (set_questions (fun qs => (qs ++ [newQuestion e question])%list)) ;;
  saveCollection e Questions ;;
  mret (newQuestion e question).

(** One property of [{...old, ...updates}]. *)
Definition spread {A} (old : option A) (upd : Own A) : option A :=
  match upd with
  | Absent => old
  | Present v => v
  end.

(** [{...old, ...updates, updatedAt: stamp}] *)
Definition merge_question (old : Question) (updates : QuestionUpdates) (stamp : string) : Question :=
  {| q_id := q_id old;
     q_question := spread (q_question old) (qu_question updates);
     q_options := spread (q_options old) (qu_options updates);
     q_correctAnswer := spread (q_correctAnswer old) (qu_correctAnswer updates);
     q_difficulty := spread (q_difficulty old) (qu_difficulty updates);
     q_category := spread (q_category old) (qu_category updates);
     q_createdAt := q_createdAt old;
     q_updatedAt := Some stamp |}.

Definition updateQuestion (e : Env) (id : string) (updates : QuestionUpdates) : M (option Question) :=
  fun w =>
    match list_find (fun q => q_id q = id) (questions (data w)) with
    | None => (Returned None, w)
    | Some (index, old) =>
        let updated := merge_question old updates (iso e) in
        (modify_data (set_questions (fun qs => <[index := updated]> qs)) ;;
         saveCollection e Questions ;;
         mret (Some updated)) w
    end.

Definition deleteQuestion (e : Env) (id : string) : M bool :=
  fun w =>
    match list_find (fun q => q_id q = id) (questions (data w)) with
    | None => (Returned false, w)
    | Some (index, _) =>
        (modify_data (set_questions (fun qs => delete index qs)) ;;
         saveCollection e Questions ;;
         mret true) w
    end.

(** *** Assessments *)

Definition getAssessments (d : Database) : list Assessment := assessments d.

Definition getAssessment (id : string) (d : Database) : option Assessment :=
  find (fun a => bool_decide (a_id a = id)) (assessments d).

Definition newAssessment (e : Env) (assessment : AssessmentData) : Assessment :=
  {| a_id := JS.toString (now e);
     a_title := ad_title assessment;
     a_description := ad_description assessment;
     a_selectedChallenges := ad_selectedChallenges assessment;
     a_timeLimit := ad_timeLimit assessment;
     a_passingScore := ad_passingScore assessment;
     a_password := ad_password assessment;
     a_createdAt := iso e;
     a_updatedAt := None |}.

Definition createAssessment (e : Env) (assessment : AssessmentData) : M Assessment :=
  modify_data (set_assessments (fun l => (l ++ [newAssessment e assessment])%list)) ;;
  saveCollection e Assessments ;;
  mret (newAssessment e assessment).

(** *** Submissions *)

Definition getSubmissions (d : Database) : list Submission := submissions d.

Definition getSubmission (id : string) (d : Database) : option Submission :=
  find (fun s => bool_decide (s_id s = id)) (submissions d).

Definition newSubmission (e : Env) (submission : SubmissionData) : Submission :=
  {| s_id := JS.toString (now e);
     s_assessmentId := sd_assessmentId submission;
     s_candidateEmail := sd_candidateEmail submission;
     s_answers := sd_answers submission;
     s_score := sd_score submission;
     s_correctCount := sd_correctCount submission;
     s_totalQuestions := sd_totalQuestions submission;
     s_passed := sd_passed submission;
     s_submittedAt := iso e |}.

Definition createSubmission (e : Env) (submission : SubmissionData) : M Submission :=
  modify_data (set_submissions (fun l => (l ++ [newSubmission e submission])%list)) ;;
  saveCollection e Submissions ;;
  mret (newSubmission e submission).

Definition deleteAssessment (e : Env) (id : string) : M bool :=
  fun w =>
    match list_find (fun a => a_id a = id) (assessments (data w)) with
    | None => (Returned false, w)
    | Some (index, _) =>
        (modify_data (set_assessments (fun l => delete index l)) ;;
         saveCollection e Assessments ;;
         mret true) w
    end.

Definition getSubmissionsByAssessment (assessmentId : string) (d : Database) : list Submission :=
  filter (fun s => s_assessmentId s = assessmentId) (submissions d).

(** [submissions.reduce((sum, s) => sum + (s.score || 0), 0)] *)
Definition sum_scores (l : list Submission) : spec_float :=
  fold_left (fun sum s => JS.add sum (JS.of_Z (JS.or_number (Some (s_score s)) 0)))
            l (JS.of_Z 0).

(** [n > 0 ? Math.round(sum / n) : 0] *)
Definition averageScore (l : list Submission) : Z :=
  if (0 <? Z.of_nat (length l))
  then JS.Math_round (JS.div (sum_scores l) (JS.of_Z (Z.of_nat (length l))))
  else 0.

(** [n > 0 ? Math.round((passed / n) * 100) : 0] *)
Definition passRate (l : list Submission) : Z :=
  if (0 <? Z.of_nat (length l))
  then JS.Math_round
         (JS.mul (JS.div (JS.of_Z (Z.of_nat (length (filter (fun s => s_passed s = true) l))))
                         (JS.of_Z (Z.of_nat (length l))))
                 (JS.of_Z 100))
  else 0.

Definition getStats (d : Database) : Stats :=
  {| st_totalQuestions := length (questions d);
     st_totalAssessments := length (assessments d);
     st_totalSubmissions := length (submissions d);
     st_averageScore := averageScore (submissions d);
     st_passRate := passRate (submissions d) |}.

(** Three calls of [saveCollection] in a row, each with its own outcome
    of the write. *)
Definition saveAll (e1 e2 e3 : Env) : M unit :=
  saveCollection e1 Questions ;;
  saveCollection e2 Assessments ;;
  saveCollection e3 Submissions.

(** [restore]: replace [this.data], then write the three files. *)
Definition restore (e1 e2 e3 : Env) (d : Database) : M unit :=
  modify_data (fun _ => d) ;; saveAll e1 e2 e3.

(** [clear] *)
Definition clear (e1 e2 e3 : Env) : M unit :=
  modify_data (fun _ => mkDatabase [] [] []) ;; saveAll e1 e2 e3.

End JSONDatabase.

(* ===================================================================== *)
(** ** The HTTP routes ([backend/server.ts]) *)
(* ===================================================================== *)

(** What a route sends: [res.status(s).json(body)], or an error body
    [{ error }] (with [requiresPassword: true] on the 401 of the gate). *)
Inductive Response (A : Type) :=
| Json (status : Z) (body : A)
| Error (status : Z) (error : string) (requiresPassword : bool).
Arguments Json {A} status body.
Arguments Error {A} status error requiresPassword.

(** The element the candidate view maps each question to. *)
Record CandidateQuestion := mkCandidateQuestion {
  cq_id : string;
  cq_question : option string;
  cq_options : option (list string);
  cq_difficulty : option Difficulty;
  cq_category : option string
}.

(** [{ ...assessment, challenges }] *)
Record WithChallenges (Q : Type) := mkWithChallenges {
  wc_assessment : Assessment;
  wc_challenges : list Q
}.
Arguments mkWithChallenges {Q} _ _.
Arguments wc_assessment {Q} _.
Arguments wc_challenges {Q} _.

(** [{ ...submission, assessmentTitle, assessmentDescription }] *)
Record EnrichedSubmission := mkEnrichedSubmission {
  es_submission : Submission;
  es_assessmentTitle : string;
  es_assessmentDescription : string
}.

(** One entry of [detailedAnswers]. *)
Record DetailedAnswer := mkDetailedAnswer {
  da_question : option string;
  da_options : option (list string);
  da_correctAnswer : option Z;
  da_candidateAnswer : option Z;
  da_isCorrect : bool
}.

(** [{ ...submission, assessmentTitle, detailedAnswers }] *)
Record SubmissionDetail := mkSubmissionDetail {
  sdt_submission : Submission;
  sdt_assessmentTitle : string;
  sdt_detailedAnswers : gmap string DetailedAnswer
}.

(** The [results] of GET /api/assessments/:id/results *)
Record ResultsStats := mkResultsStats {
  rs_totalSubmissions : nat;
  rs_averageScore : Z;
  rs_passRate : Z;
  rs_submissions : list Submission
}.

Module Server.
Import JSONDatabase.

(** The [try { ... } catch (error) { res.status(500).json(...) }] of a
    route. *)
Definition handle {A} (failure : string) (route : M (Response A)) : World -> Response A * World :=
  fun w =>
    match route w with
    | (Returned r, w') => (r, w')
    | (Thrown _, w') => (Error 500 failure false, w')
    end.

(** The [questionData] of POST /api/challenges: every field of the
    body, or its default. *)
Definition question_data (body : QuestionCreateRequest) : QuestionData :=
  {| qd_question := JS.or_string (body_question body) EmptyString;
     qd_options := JS.or_object (body_options body) [];
     qd_correctAnswer := JS.or_number (body_correctAnswer body) 0;
     qd_difficulty := JS.or_object (body_difficulty body) medium;
     qd_category := JS.or_string (body_category body) "General" |}.

(** POST /api/challenges *)
Definition post_challenge (e : Env) (body : QuestionCreateRequest) : World -> Response Question * World :=
  handle "Failed to create question"
    (question ← createQuestion e (question_data body);
     mret (Json 201 question)).

(** GET /api/challenges/:id *)
Definition get_challenge (id : string) (d : Database) : Response Question :=
  match getQuestion id d with
  | None => Error 404 "Question not found" false
  | Some question => Json 200 question
  end.

(** The [updates] of PUT /api/challenges/:id: the object always has the
    five keys, each with the value found in the body, [undefined]
    included. *)
Definition updates_of (body : QuestionCreateRequest) : QuestionUpdates :=
  {| qu_question := Present (body_question body);
     qu_options := Present (body_options body);
     qu_correctAnswer := Present (body_correctAnswer body);
     qu_difficulty := Present (body_difficulty body);
     qu_category := Present (body_category body) |}.

(** PUT /api/challenges/:id *)
Definition put_challenge (e : Env) (id : string) (body : QuestionCreateRequest) : World -> Response Question * World :=
  handle "Failed to update question"
    (question ← updateQuestion e id (updates_of body);
     mret (match question with
           | None => Error 404 "Question not found" false
           | Some q => Json 200 q
           end)).

(** DELETE /api/challenges/:id *)
Definition delete_challenge (e : Env) (id : string) : World -> Response unit * World :=
  handle "Failed to delete question"
    (deleted ← deleteQuestion e id;
     mret (if deleted : bool then Json 200 tt
           else Error 404 "Question not found" false)).

(** The [assessmentData] of POST /api/assessments *)
Definition assessment_data (body : AssessmentCreateRequest) : AssessmentData :=
  {| ad_title := JS.or_string (body_title body) EmptyString;
     ad_description := JS.or_string (body_description body) EmptyString;
     ad_selectedChallenges := JS.or_object (body_selectedChallenges body) [];
     ad_timeLimit := JS.or_number (body_timeLimit body) 30;
     ad_passingScore := JS.or_number (body_passingScore body) 70;
     ad_password := JS.or_undefined (body_password body) |}.

(** POST /api/assessments: the reply is a copy with [password] deleted. *)
Definition post_assessment (e : Env) (body : AssessmentCreateRequest) : World -> Response Assessment * World :=
  handle "Failed to create assessment"
    (assessment ← createAssessment e (assessment_data body);
     let responseAssessment :=
       {| a_id := a_id assessment;
          a_title := a_title assessment;
          a_description := a_description assessment;
          a_selectedChallenges := a_selectedChallenges assessment;
          a_timeLimit := a_timeLimit assessment;
          a_passingScore := a_passingScore assessment;
          a_password := None;
          a_createdAt := a_createdAt assessment;
          a_updatedAt := a_updatedAt assessment |} in
     mret (Json 201 responseAssessment)).

(** [db.getQuestions().filter(q => selectedChallenges.includes(q.id))] *)
Definition assessmentQuestions (assessment : Assessment) (d : Database) : list Question :=
  filter (fun q => q_id q ∈ a_selectedChallenges assessment) (getQuestions d).

(** GET /api/assessments/:id, the authoring view *)
Definition get_assessment (id : string) (d : Database) : Response (WithChallenges Question) :=
  match getAssessment id d with
  | None => Error 404 "Assessment not found" false
  | Some assessment =>
      Json 200 (mkWithChallenges assessment (assessmentQuestions assessment d))
  end.

(** [assessment.password && assessment.password !== providedPassword] *)
Definition password_mismatch (assessment : Assessment) (providedPassword : option string) : bool :=
  match a_password assessment with
  | Some secret =>
      JS.truthy_string secret && negb (bool_decide (Some secret = providedPassword))
  | None => false
  end.

(** [q => ({ id, question, options, difficulty, category })] *)
Definition candidate_view (q : Question) : CandidateQuestion :=
  {| cq_id := q_id q;
     cq_question := q_question q;
     cq_options := q_options q;
     cq_difficulty := q_difficulty q;
     cq_category := q_category q |}.

(** [{ ...assessment, password: undefined }] *)
Definition without_password (assessment : Assessment) : Assessment :=
  {| a_id := a_id assessment;
     a_title := a_title assessment;
     a_description := a_description assessment;
     a_selectedChallenges := a_selectedChallenges assessment;
     a_timeLimit := a_timeLimit assessment;
     a_passingScore := a_passingScore assessment;
     a_password := None;
     a_createdAt := a_createdAt assessment;
     a_updatedAt := a_updatedAt assessment |}.

(** GET /api/assessments/:id/take, with the value of the
    [x-assessment-password] header *)
Definition get_take (id : string) (providedPassword : option string) (d : Database)
  : Response (WithChallenges CandidateQuestion) :=
  match getAssessment id d with
  | None => Error 404 "Assessment not found" false
  | Some assessment =>
      if password_mismatch assessment providedPassword
      then Error 401 "Password required" true
      else
        Json 200 (mkWithChallenges (without_password assessment)
                    (map candidate_view (assessmentQuestions assessment d)))
  end.

(** One turn of the [forEach] over [selectedChallenges]. *)
Definition count_answer (d : Database) (answers : gmap string Z)
    (correctCount : nat) (questionId : string) : nat :=
  match getQuestion questionId d with
  | Some question =>
      if JS.strict_eq (answers !! questionId) (q_correctAnswer question)
      then S correctCount else correctCount
  | None => correctCount
  end.

Definition correctCount (d : Database) (answers : gmap string Z) (selectedChallenges : list string) : nat :=
  fold_left (count_answer d answers) selectedChallenges 0%nat.

(** [totalQuestions > 0 ? Math.round((correctCount / totalQuestions) * 100) : 0] *)
Definition percentage (correctCount totalQuestions : nat) : spec_float :=
  JS.mul (JS.div (JS.of_Z (Z.of_nat correctCount)) (JS.of_Z (Z.of_nat totalQuestions)))
         (JS.of_Z 100).

Definition score (correctCount totalQuestions : nat) : Z :=
  if (0 <? Z.of_nat totalQuestions)
  then JS.Math_round (percentage correctCount totalQuestions)
  else 0.

(** [score >= (assessment.passingScore || 70)] *)
Definition passed (score : Z) (assessment : Assessment) : bool :=
  JS.or_number (Some (a_passingScore assessment)) 70 <=? score.

(** The scoring of one submission: what the route computes between the
    validation of the request and the call of the store. *)
Definition grade (d : Database) (assessment : Assessment) (id candidateEmail : string)
    (answers : gmap string Z) : SubmissionData :=
  let correct := correctCount d answers (a_selectedChallenges assessment) in
  let totalQuestions := length (a_selectedChallenges assessment) in
  let sc := score correct totalQuestions in
  {| sd_assessmentId := id;
     sd_candidateEmail := JS.trim candidateEmail;
     sd_answers := answers;
     sd_score := sc;
     sd_correctCount := correct;
     sd_totalQuestions := totalQuestions;
     sd_passed := passed sc assessment |}.

(** [req.body.answers || {}] and [req.body.candidateEmail || ''] *)
Definition answers_of (body : SubmissionRequest) : gmap string Z :=
  JS.or_object (body_answers body) ∅.

Definition email_of (body : SubmissionRequest) : string :=
  JS.or_string (body_candidateEmail body) EmptyString.

(** POST /api/assessments/:id/submit *)
Definition post_submit (e : Env) (id : string) (body : SubmissionRequest) : World -> Response Submission * World :=
  handle "Failed to submit assessment"
    (fun w =>
       match getAssessment id (data w) with
       | None => (Returned (Error 404 "Assessment not found" false), w)
       | Some assessment =>
           let answers := answers_of body in
           let candidateEmail := email_of body in
           if negb (JS.truthy_string (JS.trim candidateEmail))
           then (Returned (Error 400 "Candidate email is required" false), w)
           else
             (submission ← createSubmission e (grade (data w) assessment id candidateEmail answers);
              mret (Json 201 submission)) w
       end).

(** GET /api/challenges *)
Definition get_challenges (d : Database) : Response (list Question) :=
  Json 200 (getQuestions d).

(** GET /api/assessments: the passwords are included. *)
Definition get_assessments (d : Database) : Response (list Assessment) :=
  Json 200 (getAssessments d).

(** [assessment?.title || 'Unknown Assessment'] *)
Definition assessmentTitle (assessment : option Assessment) : string :=
  JS.or_string (a_title <$> assessment) "Unknown Assessment".

(** GET /api/submissions *)
Definition get_submissions (d : Database) : Response (list EnrichedSubmission) :=
  Json 200
    (map (fun submission =>
            let assessment := getAssessment (s_assessmentId submission) d in
            {| es_submission := submission;
               es_assessmentTitle := assessmentTitle assessment;
               es_assessmentDescription :=
                 JS.or_string (a_description <$> assessment) EmptyString |})
         (getSubmissions d)).

(** One turn of the [forEach] that fills [detailedAnswers]. *)
Definition add_detail (d : Database) (submission : Submission)
    (detailedAnswers : gmap string DetailedAnswer) (questionId : string)
  : gmap string DetailedAnswer :=
  match getQuestion questionId d with
  | Some question =>
      <[questionId :=
          {| da_question := q_question question;
             da_options := q_options question;
             da_correctAnswer := q_correctAnswer question;
             da_candidateAnswer := s_answers submission !! questionId;
             da_isCorrect :=
               JS.strict_eq (s_answers submission !! questionId) (q_correctAnswer question) |}]>
        detailedAnswers
  | None => detailedAnswers
  end.

Definition detailedAnswers (d : Database) (submission : Submission) (assessment : option Assessment)
  : gmap string DetailedAnswer :=
  match assessment with
  | Some a => fold_left (add_detail d submission) (a_selectedChallenges a) ∅
  | None => ∅
  end.

(** GET /api/submissions/:id *)
Definition get_submission (id : string) (d : Database) : Response SubmissionDetail :=
  match getSubmission id d with
  | None => Error 404 "Submission not found" false
  | Some submission =>
      let assessment := getAssessment (s_assessmentId submission) d in
      Json 200
        {| sdt_submission := submission;
           sdt_assessmentTitle := assessmentTitle assessment;
           sdt_detailedAnswers := detailedAnswers d submission assessment |}
  end.

(** GET /api/assessments/:id/results *)
Definition get_results (id : string) (d : Database) : Response (Assessment * ResultsStats) :=
  let assessmentSubmissions := getSubmissionsByAssessment id d in
  match getAssessment id d with
  | None => Error 404 "Assessment not found" false
  | Some assessment =>
      Json 200
        (assessment,
         {| rs_totalSubmissions := length assessmentSubmissions;
            rs_averageScore := averageScore assessmentSubmissions;
            rs_passRate := passRate assessmentSubmissions;
            rs_submissions := assessmentSubmissions |})
  end.

(** GET /api/stats *)
Definition get_stats (d : Database) : Response Stats :=
  Json 200 (getStats d).

End Server.

(* ===================================================================== *)
(** ** The bodies on the wire ([res.json]) *)
(* ===================================================================== *)

#[warnings="-register-all"]
Inductive json :=
| JNull
| JBool (b : bool)
| JNum (n : Z)
| JStr (s : string)
| JArr (items : list json)
| JObj (members : list (string * json)).

Module Wire.

(** [JSON.stringify] of an object: a property whose value is
    [undefined] is left out. *)
Definition obj (props : list (string * option json)) : json :=
  JObj (omap (fun p => pair (fst p) <$> snd p) props).

(** [j[key]] of a parsed body *)
Definition member (key : string) (j : json) : option json :=
  match j with
  | JObj members => snd <$> find (fun p => String.eqb (fst p) key) members
  | _ => None
  end.

Definition strings (l : list string) : json := JArr (map JStr l).

Definition difficulty (d : Difficulty) : json :=
  JStr (match d with easy => "easy" | medium => "medium" | hard => "hard" end).

Definition question (q : Question) : json :=
  obj [ ("question", JStr <$> q_question q);
        ("options", strings <$> q_options q);
        ("correctAnswer", JNum <$> q_correctAnswer q);
        ("difficulty", difficulty <$> q_difficulty q);
        ("category", JStr <$> q_category q);
        ("id", Some (JStr (q_id q)));
        ("createdAt", Some (JStr (q_createdAt q)));
        ("updatedAt", JStr <$> q_updatedAt q) ].

Definition candidate_question (q : CandidateQuestion) : json :=
  obj [ ("id", Some (JStr (cq_id q)));
        ("question", JStr <$> cq_question q);
        ("options", strings <$> cq_options q);
        ("difficulty", difficulty <$> cq_difficulty q);
        ("category", JStr <$> cq_category q) ].

Definition assessment_props (a : Assessment) : list (string * option json) :=
  [ ("title", Some (JStr (a_title a)));
    ("description", Some (JStr (a_description a)));
    ("selectedChallenges", Some (strings (a_selectedChallenges a)));
    ("timeLimit", Some (JNum (a_timeLimit a)));
    ("passingScore", Some (JNum (a_passingScore a)));
    ("password", JStr <$> a_password a);
    ("id", Some (JStr (a_id a)));
    ("createdAt", Some (JStr (a_createdAt a)));
    ("updatedAt", JStr <$> a_updatedAt a) ].

(** [{ assessment: { ...assessment, challenges }, message }] *)
Definition with_challenges {Q} (enc : Q -> json) (message : string) (b : WithChallenges Q) : json :=
  obj [ ("assessment",
          Some (obj (assessment_props (wc_assessment b) ++
                     [ ("challenges", Some (JArr (map enc (wc_challenges b)))) ])%list));
        ("message", Some (JStr message)) ].

(** The body of GET /api/assessments/:id *)
Definition authoring_body : WithChallenges Question -> json :=
  with_challenges question "Assessment retrieved successfully".

(** The body of GET /api/assessments/:id/take *)
Definition take_body : WithChallenges CandidateQuestion -> json :=
  with_challenges candidate_question "Assessment ready for candidate".

End Wire.

(* ===================================================================== *)
(** ** Sample data *)
(* ===================================================================== *)

Module Sample.

Definition q1 : Question :=
  mkQuestion "1" (Some "What is 2 + 2?") (Some ["3"; "4"; "5"; "6"]) (Some 1)
    (Some easy) (Some "Math") "2024-01-01T00:00:00.000Z" None.

Definition q2 : Question :=
  mkQuestion "2" (Some "What is 3 - 3?") (Some ["0"; "1"]) (Some 0)
    (Some medium) (Some "Math") "2024-01-01T00:00:01.000Z" None.

Definition quiz (selected : list string) (passingScore : Z) (password : option string) : Assessment :=
  mkAssessment "10" "Math Quiz" "Basic math questions" selected 15 passingScore
    password "2024-01-02T00:00:00.000Z" None.

Definition db (qs : list Question) (a : Assessment) : Database := mkDatabase qs [a] [].

Definition world (qs : list Question) (a : Assessment) : World :=
  mkWorld (db qs a) (db qs a).

Definition env (ok : bool) : Env := mkEnv 1700000000000 "2024-01-03T00:00:00.000Z" ok.

Definition request (email : string) (answers : list (string * Z)) : SubmissionRequest :=
  mkSubmissionRequest (Some email) (Some (list_to_map answers)).

Definition empty_world : World := mkWorld (mkDatabase [] [] []) (mkDatabase [] [] []).

(** The second question is deleted after the assessment was created. *)
Definition after_delete : World :=
  snd (Server.delete_challenge (env true) "2" (world [q1; q2] (quiz ["1"; "2"] 50 None))).

End Sample.

(* ===================================================================== *)
(** ** Vocabulary of the statements *)
(* ===================================================================== *)

Module Terms.
Import JSONDatabase Server.

Fixpoint whitespace_only (s : string) : bool :=
  match s with
  | EmptyString => true
  | String c s' => JS.is_white c && whitespace_only s'
  end.

(** The e-mail of a request is absent, empty or white space only. *)
Definition blank_email (body : SubmissionRequest) : Prop :=
  match body_candidateEmail body with
  | None => True
  | Some s => whitespace_only s = true
  end.

(** The submission the store receives for an accepted request. *)
Definition submitted (e : Env) (id : string) (body : SubmissionRequest)
    (d : Database) (a : Assessment) : Submission :=
  newSubmission e (grade d a id (email_of body) (answers_of body)).

(** The test of one turn of the scoring loop: the id resolves and the
    submitted value is strictly equal to the stored correct answer. *)
Definition answered_correctly (d : Database) (answers : gmap string Z) (questionId : string) : bool :=
  match getQuestion questionId d with
  | Some question => JS.strict_eq (answers !! questionId) (q_correctAnswer question)
  | None => false
  end.

Definition resolves (d : Database) (questionId : string) : bool :=
  match getQuestion questionId d with Some _ => true | None => false end.

(** The percentage rounded half up in exact arithmetic. *)
Definition exact_score (correct total : nat) : Z :=
  (200 * Z.of_nat correct + Z.of_nat total) / (2 * Z.of_nat total).

Definition agree_upto (n : nat) : bool :=
  forallb (fun t => forallb (fun c => score c (S t) =? exact_score c (S t)) (seq 0 (S (S t))))
          (seq 0 n).

(** [0 <= correctAnswer < len(options)] *)
Definition in_range (correctAnswer : Z) (options : list string) : Prop :=
  0 <= correctAnswer < Z.of_nat (length options).

Definition valid_question (q : Question) : Prop :=
  match q_correctAnswer q, q_options q with
  | Some c, Some o => in_range c o
  | _, _ => False
  end.

(** The operations on the question collection, and those that carry a
    correct answer within the options. *)
Inductive QuestionOp :=
| Create (e : Env) (body : QuestionCreateRequest)
| Update (e : Env) (id : string) (body : QuestionCreateRequest).

Definition run_op (w : World) (op : QuestionOp) : World :=
  match op with
  | Create e body => snd (post_challenge e body w)
  | Update e id body => snd (put_challenge e id body w)
  end.

Definition in_range_op (op : QuestionOp) : Prop :=
  match op with
  | Create _ body =>
      in_range (JS.or_number (body_correctAnswer body) 0) (JS.or_object (body_options body) [])
  | Update _ _ body =>
      match body_correctAnswer body, body_options body with
      | Some c, Some o => in_range c o
      | _, _ => False
      end
  end.

(** Every id of the list is the numeral of a clock reading before [t]. *)
Definition stamped_before (t : Z) (ids : list string) : Prop :=
  Forall (fun i => exists t', t' < t /\ i = JS.toString t') ids.

End Terms.

Export Terms.

(* ===================================================================== *)
(** ** The pages that call the routes ([frontend/src]) *)
(* ===================================================================== *)

(** The form of the question page ([ChallengeManagement.tsx]). *)
Record FormData := mkFormData {
  fd_question : string;
  fd_options : list string;
  fd_correctAnswer : Z;
  fd_difficulty : Difficulty;
  fd_category : string
}.

(** The form of the assessment page ([AssessmentCreation.tsx]); the two
    numbers come from [parseInt] and are [NaN] ([None]) for an input that
    does not start with a numeral. *)
Record AssessmentForm := mkAssessmentForm {
  af_title : string;
  af_description : string;
  af_selectedChallenges : list string;
  af_timeLimit : option Z;
  af_passingScore : option Z;
  af_password : string
}.

Module Client.
Import JSONDatabase Server.

(** *** [services/api.ts] *)

(** [getAssessmentForCandidate]: the header is set for a truthy password
    only. *)
Definition getAssessmentForCandidate (id : string) (password : option string) (d : Database)
  : Response (WithChallenges CandidateQuestion) :=
  get_take id (JS.or_undefined password) d.

(** [submitAssessment]: the body has both fields. *)
Definition submitAssessment (e : Env) (assessmentId candidateEmail : string)
    (answers : gmap string Z) : World -> Response Submission * World :=
  post_submit e assessmentId (mkSubmissionRequest (Some candidateEmail) (Some answers)).

(** *** [ChallengeManagement.tsx] *)

Definition initialForm : FormData :=
  mkFormData EmptyString [EmptyString; EmptyString; EmptyString; EmptyString] 0 medium "General".

Definition set_options (options : list string) (correctAnswer : Z) (fd : FormData) : FormData :=
  mkFormData (fd_question fd) options correctAnswer (fd_difficulty fd) (fd_category fd).

Definition addOption (fd : FormData) : FormData :=
  if (length (fd_options fd) <? 6)%nat
  then set_options (fd_options fd ++ [EmptyString])%list (fd_correctAnswer fd) fd
  else fd.

(** [options.filter((_, i) => i !== index)], and the correct answer moved
    down when it is at or after the removed place. *)
Definition removeOption (index : nat) (fd : FormData) : FormData :=
  if (2 <? length (fd_options fd))%nat
  then set_options (delete index (fd_options fd))
         (if Z.of_nat index <=? fd_correctAnswer fd
          then Z.max 0 (fd_correctAnswer fd - 1)
          else fd_correctAnswer fd)
         fd
  else fd.

(** The radio button of the option at [index]. *)
Definition selectCorrect (index : nat) (fd : FormData) : FormData :=
  set_options (fd_options fd) (Z.of_nat index) fd.

(** [validateForm]: the list of errors; the form is sent when it is
    empty. *)
Definition blank (s : string) : bool := negb (JS.truthy_string (JS.trim s)).

Definition formErrors (fd : FormData) : list string :=
  ((if blank (fd_question fd) then ["Question text is required"] else []) ++
   (if existsb blank (fd_options fd) then ["All answer options must be filled"] else []) ++
   (if (length (List.filter (fun o => negb (blank o)) (fd_options fd)) <? 2)%nat
    then ["At least 2 answer options are required"] else []) ++
   (if blank (fd_category fd) then ["Category is required"] else []))%list.

Definition validateForm (fd : FormData) : bool :=
  (length (formErrors fd) =? 0)%nat.

(** [JSON.stringify(formData)] as the routes read it. *)
Definition form_body (fd : FormData) : QuestionCreateRequest :=
  mkQuestionCreateRequest (Some (fd_question fd)) (Some (fd_options fd))
    (Some (fd_correctAnswer fd)) (Some (fd_difficulty fd)) (Some (fd_category fd)).

(** [handleSubmit]: nothing is sent for an invalid form; otherwise the
    form goes to the update route when a question is being edited and to
    the create route when not. *)
Definition handleSubmit (e : Env) (editingQuestion : option string) (fd : FormData) (w : World)
  : option (Response Question * World) :=
  if validateForm fd
  then Some (match editingQuestion with
             | Some id => put_challenge e id (form_body fd) w
             | None => post_challenge e (form_body fd) w
             end)
  else None.

(** *** [AssessmentCreation.tsx] *)

Definition handleQuestionToggle (questionId : string) (selectedChallenges : list string) : list string :=
  if bool_decide (questionId ∈ selectedChallenges)
  then filter (fun id => id <> questionId) selectedChallenges
  else (selectedChallenges ++ [questionId])%list.

(** [{ ...formData, password: formData.password || undefined }], sent
    as JSON: a [NaN] arrives as [null]. *)
Definition assessment_body (af : AssessmentForm) : AssessmentCreateRequest :=
  mkAssessmentCreateRequest (Some (af_title af)) (Some (af_description af))
    (Some (af_selectedChallenges af)) (af_timeLimit af) (af_passingScore af)
    (JS.or_undefined (Some (af_password af))).

Definition createFromForm (e : Env) (af : AssessmentForm) : World -> Response Assessment * World :=
  post_assessment e (assessment_body af).

(** *** [CandidateInterface.tsx] *)

(** [handlePasswordSubmit]: nothing is sent for a blank input; otherwise
    the trimmed input is the password of the request. *)
Definition handlePasswordSubmit (id : string) (password : string) (d : Database)
  : option (Response (WithChallenges CandidateQuestion)) :=
  if JS.truthy_string (JS.trim password)
  then Some (getAssessmentForCandidate id (Some (JS.trim password)) d)
  else None.

(** [handleAnswerChange] *)
Definition handleAnswerChange (questionId : string) (answerIndex : nat) (answers : gmap string Z)
  : gmap string Z :=
  <[questionId := Z.of_nat answerIndex]> answers.

(** [handleSubmit] of the candidate page: nothing is sent without an id
    or with a blank e-mail. *)
Definition submitAnswers (e : Env) (id : option string) (candidateEmail : string)
    (answers : gmap string Z) (w : World) : option (Response Submission * World) :=
  match id with
  | Some i =>
      if JS.truthy_string i && JS.truthy_string (JS.trim candidateEmail)
      then Some (submitAssessment e i (JS.trim candidateEmail) answers w)
      else None
  | None => None
  end.

End Client.

(* ===================================================================== *)
(** ** Vocabulary of the further statements *)
(* ===================================================================== *)

Module Facts.
Import JSONDatabase Server Client.

(** The requests that change the store. *)
Inductive Call :=
| PostChallenge (e : Env) (body : QuestionCreateRequest)
| PutChallenge (e : Env) (id : string) (body : QuestionCreateRequest)
| DeleteChallenge (e : Env) (id : string)
| PostAssessment (e : Env) (body : AssessmentCreateRequest)
| PostSubmit (e : Env) (id : string) (body : SubmissionRequest).

Definition call (w : World) (c : Call) : World :=
  match c with
  | PostChallenge e body => snd (post_challenge e body w)
  | PutChallenge e id body => snd (put_challenge e id body w)
  | DeleteChallenge e id => snd (delete_challenge e id w)
  | PostAssessment e body => snd (post_assessment e body w)
  | PostSubmit e id body => snd (post_submit e id body w)
  end.

Definition calls (w : World) (cs : list Call) : World := fold_left call cs w.

Definition call_env (c : Call) : Env :=
  match c with
  | PostChallenge e _ | PutChallenge e _ _ | DeleteChallenge e _
  | PostAssessment e _ | PostSubmit e _ _ => e
  end.

(** What the create route leaves in an assessment. *)
Definition normalised (a : Assessment) : Prop :=
  a_passingScore a <> 0 /\ a_timeLimit a <> 0 /\ a_password a <> Some EmptyString.

(** What the submit route leaves in a submission. *)
Definition graded (s : Submission) : Prop :=
  (s_correctCount s <= s_totalQuestions s)%nat /\
  s_score s = score (s_correctCount s) (s_totalQuestions s) /\
  JS.trim (s_candidateEmail s) = s_candidateEmail s /\
  s_candidateEmail s <> EmptyString.

(** Each file was last written from the collection that is in memory. *)
Definition synced (w : World) : Prop := files w = data w.

(** The state of the option editor of the question form. *)
Definition form_ok (fd : FormData) : Prop :=
  (2 <= length (fd_options fd) <= 6)%nat /\
  0 <= fd_correctAnswer fd < Z.of_nat (length (fd_options fd)).

(** The buttons of the option editor; a button for the option at [index]
    exists for the options on display only. *)
Inductive Click :=
| ClickAdd
| ClickRemove (index : nat)
| ClickCorrect (index : nat).

Definition click (fd : FormData) (c : Click) : FormData :=
  match c with
  | ClickAdd => addOption fd
  | ClickRemove index => removeOption index fd
  | ClickCorrect index => selectCorrect index fd
  end.

Definition on_display (fd : FormData) (c : Click) : Prop :=
  match c with
  | ClickAdd => True
  | ClickRemove index | ClickCorrect index => (index < length (fd_options fd))%nat
  end.

(** The form states the buttons lead to. *)
Inductive edits : FormData -> FormData -> Prop :=
| edits_refl fd : edits fd fd
| edits_step fd fd' c : edits fd fd' -> on_display fd' c -> edits fd (click fd' c).

(** The checks of the score table, for every total from 1 to [n] and
    every number of correct answers up to the total. *)
Definition score_checks (c t : nat) : bool :=
  let s := score c t in
  let x := exact_score c t in
  (0 <=? s) && (s <=? 100)
  && (Z.abs (s - x) <=? 1)
  && ((39 <? t)%nat || (s =? x))
  && (negb (c =? 0)%nat || (s =? 0))
  && (negb (c =? t)%nat || (s =? 100)).

Definition score_table (n : nat) : bool :=
  forallb (fun t => forallb (fun c => score_checks c t) (seq 0 (S t))) (seq 1 n).

End Facts.

Export Facts.

(* ===================================================================== *)
(** ** Strings: when [trim] leaves nothing *)
(* ===================================================================== *)

Section Trim.

Lemma trimStart_whitespace_only s :
  whitespace_only (JS.trimStart s) = whitespace_only s.
Proof.
  induction s as [|c s IH]; simpl; [reflexivity|].
  destruct (JS.is_white c) eqn:Hc; simpl; [exact IH | now rewrite Hc].
Qed.

Lemma trimEnd_empty s :
  JS.trimEnd s = EmptyString <-> whitespace_only s = true.
Proof.
  induction s as [|c s IH]; simpl; [tauto|].
  destruct (JS.trimEnd s) as [|c' t] eqn:Ht.
  - destruct (JS.is_white c); simpl.
    + split; intros _; [apply IH|]; reflexivity.
    + split; discriminate.
  - split; [discriminate|].
    intros H. apply andb_true_iff in H as [_ H].
    apply IH in H. discriminate.
Qed.

Lemma trim_empty s :
  JS.trim s = EmptyString <-> whitespace_only s = true.
Proof.
  unfold JS.trim. rewrite trimEnd_empty. now rewrite trimStart_whitespace_only.
Qed.

Lemma truthy_string_false s : JS.truthy_string s = false <-> s = EmptyString.
Proof.
  unfold JS.truthy_string. rewrite negb_false_iff. apply String.eqb_eq.
Qed.

End Trim.

(* ===================================================================== *)
(** ** The store: what a mutating method leaves behind *)
(* ===================================================================== *)

Section Store.
Import JSONDatabase.

(** Change [this.data], save the collection, return [x]: the change is
    in memory whether or not the write succeeds. *)
Lemma run_store_update {A} (e : Env) (c : Collection) (f : Database -> Database) (x : A) (w : World) :
  (modify_data f ;; saveCollection e c ;; mret x) w =
  if fs_ok e
  then (Returned x, mkWorld (f (data w)) (write_file c (f (data w)) (files w)))
  else (Thrown ("Failed to save " +:+ collection_name c), mkWorld (f (data w)) (files w)).
Proof.
  unfold mbind, M_bind, modify_data, saveCollection, mret, M_ret; simpl.
  destruct (fs_ok e); reflexivity.
Qed.

Lemma or_string_empty (x : option string) : JS.or_string x EmptyString = default EmptyString x.
Proof.
  destruct x as [s|]; simpl; [|reflexivity].
  destruct (JS.truthy_string s) eqn:H; [reflexivity|].
  apply truthy_string_false in H. now subst.
Qed.

End Store.

(* ===================================================================== *)
(** ** Submitting answers *)
(* ===================================================================== *)

Section Submit.
Import JSONDatabase Server Sample.

Lemma blank_email_trim body :
  blank_email body <-> JS.trim (email_of body) = EmptyString.
Proof.
  unfold blank_email, email_of. rewrite or_string_empty, trim_empty.
  destruct (body_candidateEmail body); simpl; tauto.
Qed.

(** An accepted request appends exactly one submission; the reply is
    201 with that submission, or 500 when the file cannot be written
    (the submission then stays in memory only). *)
Lemma post_submit_accepted e id body w a :
  getAssessment id (data w) = Some a ->
  ~ blank_email body ->
  post_submit e id body w =
    let s := submitted e id body (data w) a in
    let d' := set_submissions (fun l => (l ++ [s])%list) (data w) in
    if fs_ok e
    then (Json 201 s, mkWorld d' (write_file Submissions d' (files w)))
    else (Error 500 "Failed to submit assessment" false, mkWorld d' (files w)).
Proof.
  intros Ha Hne. rewrite blank_email_trim in Hne.
  unfold post_submit, handle. rewrite Ha.
  destruct (JS.truthy_string (JS.trim (email_of body))) eqn:Ht; simpl.
  - unfold createSubmission.
    unfold mbind at 1, M_bind at 1.
    rewrite run_store_update.
    destruct (fs_ok e); reflexivity.
  - apply truthy_string_false in Ht. contradiction.
Qed.

Lemma post_submit_stored e id body w a :
  getAssessment id (data w) = Some a ->
  ~ blank_email body ->
  submissions (data (snd (post_submit e id body w))) =
    (submissions (data w) ++ [submitted e id body (data w) a])%list.
Proof.
  intros Ha Hne. rewrite (post_submit_accepted _ _ _ _ _ Ha Hne); simpl.
  destruct (fs_ok e); reflexivity.
Qed.

(** C7. A submit request against an existing assessment whose candidate
    e-mail is absent, empty or white space only is answered with 400
    "Candidate email is required", and the store (the collections in
    memory and the files) is left as it was: no submission is created. *)
Theorem submit_blank_email_rejected e id body w a :
  getAssessment id (data w) = Some a ->
  blank_email body ->
  post_submit e id body w = (Error 400 "Candidate email is required" false, w).
Proof.
  intros Ha Hb. apply blank_email_trim in Hb.
  unfold post_submit, handle. rewrite Ha, Hb. reflexivity.
Qed.

(** An e-mail of three spaces, and a request without e-mail. *)
Lemma submit_blank_email_rejected_witness :
  let w := world [q1; q2] (quiz ["1"; "2"] 70 None) in
  post_submit (env true) "10" (request "   " [("1", 1)]) w
    = (Error 400 "Candidate email is required" false, w) /\
  post_submit (env true) "10" (mkSubmissionRequest None (Some ∅)) w
    = (Error 400 "Candidate email is required" false, w).
Proof.
  intros w. split.
  - apply (submit_blank_email_rejected (env true) "10" (request "   " [("1", 1)]) w
             (quiz ["1"; "2"] 70 None)); reflexivity.
  - apply (submit_blank_email_rejected (env true) "10" (mkSubmissionRequest None (Some ∅)) w
             (quiz ["1"; "2"] 70 None)); [reflexivity | exact I].
Defined.

End Submit.

(* ===================================================================== *)
(** ** Scoring *)
(* ===================================================================== *)

Section Scoring.
Import JSONDatabase Server.

Variable d : Database.
Variable answers : gmap string Z.

Lemma count_answer_step n questionId :
  count_answer d answers n questionId =
  (n + (if answered_correctly d answers questionId then 1 else 0))%nat.
Proof.
  unfold count_answer, answered_correctly.
  destruct (getQuestion questionId d) as [q|]; [|lia].
  destruct (JS.strict_eq _ _); lia.
Qed.

Lemma fold_count_answer l n :
  fold_left (count_answer d answers) l n =
  (n + length (filter (fun i => answered_correctly d answers i = true) l))%nat.
Proof.
  revert n. induction l as [|i l IH]; intros n; simpl; [lia|].
  rewrite IH, count_answer_step, filter_cons.
  destruct (answered_correctly d answers i); simpl; lia.
Qed.

(** The loop counts the occurrences that pass the test. *)
Lemma correctCount_filter l :
  correctCount d answers l =
  length (filter (fun i => answered_correctly d answers i = true) l).
Proof. unfold correctCount. now rewrite fold_count_answer. Qed.

Lemma correctCount_app l1 l2 :
  correctCount d answers (l1 ++ l2) =
  (correctCount d answers l1 + correctCount d answers l2)%nat.
Proof. rewrite !correctCount_filter, filter_app, length_app. reflexivity. Qed.

Lemma correctCount_Permutation l1 l2 :
  l1 ≡ₚ l2 -> correctCount d answers l1 = correctCount d answers l2.
Proof. intros H. rewrite !correctCount_filter. now rewrite H. Qed.

(** Splitting a list by one id: its occurrences and the rest. *)
Lemma length_split_by (qid : string) (P : string -> Prop) `{!forall i, Decision (P i)} l :
  length (filter P l) =
  (length (filter P (filter (fun i => i = qid) l)) +
   length (filter P (filter (fun i => i <> qid) l)))%nat.
Proof.
  induction l as [|i l IH]; [reflexivity|].
  rewrite !filter_cons.
  destruct (decide (i = qid)) as [->|Hne].
  - rewrite (decide_False (P := qid <> qid)) by tauto.
    rewrite filter_cons. destruct (decide (P qid)); simpl; lia.
  - rewrite (decide_True (P := i <> qid)) by assumption.
    rewrite filter_cons. destruct (decide (P i)); simpl; lia.
Qed.

Lemma filter_all_same (qid : string) (P : string -> Prop) `{!forall i, Decision (P i)} l :
  filter P (filter (fun i => i = qid) l) =
  if decide (P qid) then filter (fun i => i = qid) l else [].
Proof.
  induction l as [|i l IH]; simpl; [now destruct (decide (P qid))|].
  rewrite filter_cons. destruct (decide (i = qid)) as [->|Hne]; [|exact IH].
  rewrite filter_cons, IH. now destruct (decide (P qid)).
Qed.


(** No occurrence of an id that fails the test adds anything. *)
Lemma correctCount_skips qid l :
  answered_correctly d answers qid = false ->
  correctCount d answers l =
  correctCount d answers (filter (fun i => i <> qid) l).
Proof.
  intros H. rewrite !correctCount_filter.
  rewrite (length_split_by qid), filter_all_same.
  rewrite decide_False by (rewrite H; discriminate). reflexivity.
Qed.

Lemma unresolved_not_correct qid :
  getQuestion qid d = None -> answered_correctly d answers qid = false.
Proof. unfold answered_correctly. now intros ->. Qed.

(** Correct answers and unresolved ids are disjoint parts of the list. *)
Lemma correct_plus_unresolved l :
  (correctCount d answers l + length (filter (fun i => resolves d i = false) l)
   <= length l)%nat.
Proof.
  rewrite correctCount_filter.
  induction l as [|i l IH]; simpl; [lia|].
  rewrite !filter_cons.
  unfold answered_correctly, resolves in *.
  destruct (getQuestion i d) as [q|].
  - rewrite (decide_False (P := true = false)) by discriminate.
    destruct (decide _); simpl; lia.
  - rewrite (decide_False (P := false = true)) by discriminate.
    rewrite (decide_True (P := false = false)) by reflexivity.
    simpl; lia.
Qed.

End Scoring.

Section SubmitScoring.
Import JSONDatabase Server Sample.

(** Up to 39 questions the binary64 computation gives the exactly
    rounded percentage, whatever the number of correct answers. *)
Lemma score_exact_small : agree_upto 39 = true.
Proof. vm_compute. reflexivity. Qed.

(** With 40 questions it need not: 23 of 40 is 57.5 percent, the
    binary64 product is 57.49999999999999. *)
Lemma score_23_of_40 : score 23 40 = 57 /\ exact_score 23 40 = 58.
Proof. split; vm_compute; reflexivity. Qed.

(** The pass mark of the comparison: [assessment.passingScore || 70]. *)
Lemma or_number_passingScore (p : Z) :
  JS.or_number (Some p) 70 = if decide (p = 0) then 70 else p.
Proof.
  unfold JS.or_number, JS.truthy_number.
  destruct (Z.eqb_spec p 0); destruct (decide (p = 0)); simpl; congruence.
Qed.


(** A stored passing score of 0 is read as 70 by the comparison. The
    create route never stores one ([passingScore || 70] there too), so
    such a record can only come from an [assessments.json] written by
    other means. *)
Lemma stored_zero_passing_score_reads_70 :
  let a := quiz [] 0 None in
  let w' := snd (post_submit (env true) "10" (request "a@b.c" []) (world [] a)) in
  exists s,
    submissions (data w') = [s] /\
    s_totalQuestions s = 0%nat /\ s_score s = 0 /\
    (a_passingScore a <=? s_score s) = true /\
    s_passed s = false.
Proof. vm_compute. eexists. repeat split. Qed.

End SubmitScoring.

(* ===================================================================== *)
(** ** The denominator, stale references and repeated ids *)
(* ===================================================================== *)

Section Denominator.
Import JSONDatabase Server Sample.

(** C2. The stored totalQuestions of a submission is the length of the
    assessment's selectedChallenges at submission time, ids that do not
    resolve included; an id that does not resolve adds nothing to
    correctCount (the count is the same with every occurrence of it
    struck from the list), so the correct answers and the unresolved
    occurrences together never exceed the total. *)
Theorem submit_total_counts_every_id e id body w a :
  getAssessment id (data w) = Some a ->
  ~ blank_email body ->
  exists s,
    submissions (data (snd (post_submit e id body w))) = (submissions (data w) ++ [s])%list /\
    s_totalQuestions s = length (a_selectedChallenges a) /\
    (forall qid n, getQuestion qid (data w) = None ->
       count_answer (data w) (answers_of body) n qid = n) /\
    (forall qid, getQuestion qid (data w) = None ->
       s_correctCount s =
       correctCount (data w) (answers_of body)
         (filter (fun i => i <> qid) (a_selectedChallenges a))) /\
    (s_correctCount s +
     length (filter (fun i => resolves (data w) i = false) (a_selectedChallenges a))
     <= s_totalQuestions s)%nat.
Proof.
  intros Ha Hne. exists (submitted e id body (data w) a).
  split; [now apply post_submit_stored|].
  unfold submitted, newSubmission, grade; simpl.
  split; [reflexivity|]. split; [|split].
  - intros qid n Hq. unfold count_answer. now rewrite Hq.
  - intros qid Hq. apply correctCount_skips. now apply unresolved_not_correct.
  - apply correct_plus_unresolved.
Qed.

Lemma submit_total_counts_every_id_witness :
  questions (data after_delete) = [q1] /\
  exists s,
    submissions (data (snd (post_submit (env true) "10"
                              (request "a@b.c" [("1", 1); ("2", 0)]) after_delete))) = [s] /\
    s_totalQuestions s = 2%nat /\ s_correctCount s = 1%nat /\ s_score s = 50.
Proof.
  split; [reflexivity|].
  destruct (submit_total_counts_every_id (env true) "10"
              (request "a@b.c" [("1", 1); ("2", 0)]) after_delete (quiz ["1"; "2"] 50 None))
    as (s & Hs & _).
  - reflexivity.
  - vm_compute. discriminate.
  - exists s. split; [exact Hs|].
    vm_compute in Hs. injection Hs as <-. repeat split.
Defined.







End Denominator.

(* ===================================================================== *)
(** ** The order of the questions *)
(* ===================================================================== *)

Section Order.
Import JSONDatabase Server Sample.

Lemma assessmentQuestions_Permutation a a' d :
  a_selectedChallenges a ≡ₚ a_selectedChallenges a' ->
  assessmentQuestions a d = assessmentQuestions a' d.
Proof.
  intros Hp. unfold assessmentQuestions.
  apply list_filter_iff. intros q. now rewrite Hp.
Qed.

(** C8 (amended). The candidate view presents the selected questions in
    the order in which the store holds them, whatever the order of
    selectedChallenges: reordering selectedChallenges changes neither
    the view nor the outcome of scoring. *)
Theorem candidate_view_in_store_order id cred d a b :
  getAssessment id d = Some a ->
  get_take id cred d = Json 200 b ->
  wc_challenges b =
    map candidate_view (filter (fun q => q_id q ∈ a_selectedChallenges a) (questions d)) /\
  (cq_id <$> wc_challenges b) `sublist_of` (q_id <$> questions d) /\
  (forall a', a_selectedChallenges a' ≡ₚ a_selectedChallenges a ->
     map candidate_view (assessmentQuestions a' d) = wc_challenges b) /\
  (forall a' sid email answers,
     a_selectedChallenges a' ≡ₚ a_selectedChallenges a ->
     a_passingScore a' = a_passingScore a ->
     grade d a' sid email answers = grade d a sid email answers).
Proof.
  intros Ha Ht. unfold get_take in Ht. rewrite Ha in Ht.
  destruct (password_mismatch a cred); [discriminate|].
  injection Ht as <-. simpl.
  split; [reflexivity|]. split; [|split].
  - unfold assessmentQuestions, getQuestions.
    change (map candidate_view ?l) with (candidate_view <$> l).
    rewrite <- list_fmap_compose.
    change (cq_id ∘ candidate_view) with q_id.
    apply fmap_sublist, sublist_filter.
  - intros a' Hp. f_equal. now apply assessmentQuestions_Permutation.
  - intros a' sid email answers Hp Hps. unfold grade.
    rewrite (correctCount_Permutation d answers _ _ Hp).
    rewrite (Permutation_length Hp).
    unfold passed. rewrite Hps. reflexivity.
Qed.

(** The selection lists the second question first; the view follows
    the store. *)
Lemma candidate_view_in_store_order_witness :
  exists b,
    get_take "10" None (db [q1; q2] (quiz ["2"; "1"] 70 None)) = Json 200 b /\
    cq_id <$> wc_challenges b = ["1"; "2"].
Proof.
  eexists. split; [reflexivity|].
  destruct (candidate_view_in_store_order "10" None (db [q1; q2] (quiz ["2"; "1"] 70 None))
              (quiz ["2"; "1"] 70 None) _ eq_refl eq_refl) as [-> _].
  reflexivity.
Defined.

(** C8 as stated fails: the candidate view of an assessment that
    selects question 2 before question 1 presents question 1 first. *)
Lemma candidate_view_order_counterexample :
  let a := quiz ["2"; "1"] 70 None in
  exists b,
    get_take "10" None (db [q1; q2] a) = Json 200 b /\
    a_selectedChallenges a = ["2"; "1"] /\
    cq_id <$> wc_challenges b = ["1"; "2"] /\
    cq_id <$> wc_challenges b <> a_selectedChallenges a.
Proof.
  eexists. split; [reflexivity|]. repeat split. discriminate.
Qed.

End Order.

(* ===================================================================== *)
(** ** The access gate and the candidate view *)
(* ===================================================================== *)

Section Gate.
Import JSONDatabase Server Sample.

Lemma password_mismatch_spec a cred :
  password_mismatch a cred = true <->
  exists secret, a_password a = Some secret /\ secret <> EmptyString /\ cred <> Some secret.
Proof.
  unfold password_mismatch, JS.truthy_string.
  destruct (a_password a) as [secret|].
  - rewrite andb_true_iff, !negb_true_iff, String.eqb_neq, bool_decide_eq_false.
    split.
    + intros [Hs Hc]. exists secret. repeat split; congruence.
    + intros (s & [= <-] & Hs & Hc). split; congruence.
  - split; [discriminate|]. intros (s & Hs & _). discriminate.
Qed.

(** C6. For an existing assessment and any supplied credential, absent
    or not: with no secret the candidate view is granted; with a secret
    it is granted when the credential is that very string, and every
    other credential, a missing one included, gets the 401
    "Password required" with the [requiresPassword] flag. *)
Theorem access_gate id d a cred :
  getAssessment id d = Some a ->
  (a_password a = None -> exists b, get_take id cred d = Json 200 b) /\
  (forall secret, a_password a = Some secret -> secret <> EmptyString ->
     (cred = Some secret -> exists b, get_take id cred d = Json 200 b) /\
     (cred <> Some secret -> get_take id cred d = Error 401 "Password required" true)).
Proof.
  intros Ha. unfold get_take. rewrite Ha.
  destruct (password_mismatch a cred) eqn:Hm.
  - apply password_mismatch_spec in Hm as (s & Hs & Hne & Hc).
    split; [congruence|].
    intros secret Hsec _. assert (secret = s) as -> by congruence.
    split; [contradiction | reflexivity].
  - split; [eauto|]. intros secret Hsec Hne. split; [eauto|].
    intros Hc. assert (password_mismatch a cred = true) as Habs; [|congruence].
    apply password_mismatch_spec. eauto.
Qed.

(** The three cases of the gate: no secret and no credential; the
    secret "abc123" against "wrong"; the same against "abc123". *)
Lemma access_gate_witness :
  (exists b, get_take "10" None (db [q1] (quiz ["1"] 70 None)) = Json 200 b) /\
  get_take "10" (Some "wrong") (db [q1] (quiz ["1"] 70 (Some "abc123")))
    = Error 401 "Password required" true /\
  (exists b, get_take "10" (Some "abc123") (db [q1] (quiz ["1"] 70 (Some "abc123"))) = Json 200 b).
Proof.
  pose proof (access_gate "10" (db [q1] (quiz ["1"] 70 None))
                (quiz ["1"] 70 None) None eq_refl) as [Hopen _].
  pose proof (access_gate "10" (db [q1] (quiz ["1"] 70 (Some "abc123")))
                (quiz ["1"] 70 (Some "abc123")) (Some "wrong") eq_refl) as [_ Hwrong].
  pose proof (access_gate "10" (db [q1] (quiz ["1"] 70 (Some "abc123")))
                (quiz ["1"] 70 (Some "abc123")) (Some "abc123") eq_refl) as [_ Hright].
  split; [|split].
  - apply Hopen. reflexivity.
  - apply (Hwrong "abc123"); [reflexivity | discriminate | discriminate].
  - apply (Hright "abc123"); [reflexivity | discriminate | reflexivity].
Defined.

(** A stored secret that is the empty string is no secret for the
    gate; the create route never stores one ([password || undefined]). *)
Lemma empty_secret_is_no_secret id d a cred :
  getAssessment id d = Some a ->
  a_password a = Some EmptyString ->
  exists b, get_take id cred d = Json 200 b.
Proof.
  intros Ha Hp. unfold get_take, password_mismatch. rewrite Ha, Hp. simpl. eauto.
Qed.

Lemma take_body_no_password a (challenges : json) :
  Wire.member "password"
    (Wire.obj (Wire.assessment_props (without_password a) ++
               [("challenges", Some challenges)])) = None.
Proof. unfold Wire.obj, Wire.assessment_props; simpl. now destruct (a_updatedAt a). Qed.

Lemma take_body_challenges a (challenges : json) :
  Wire.member "challenges"
    (Wire.obj (Wire.assessment_props a ++ [("challenges", Some challenges)]))
  = Some challenges.
Proof.
  unfold Wire.obj, Wire.assessment_props; simpl.
  now destruct (a_password a), (a_updatedAt a).
Qed.

Lemma authoring_body_password a (challenges : json) :
  Wire.member "password"
    (Wire.obj (Wire.assessment_props a ++ [("challenges", Some challenges)]))
  = JStr <$> a_password a.
Proof.
  unfold Wire.obj, Wire.assessment_props; simpl.
  now destruct (a_password a), (a_updatedAt a).
Qed.

Lemma candidate_question_no_correctAnswer c :
  Wire.member "correctAnswer" (Wire.candidate_question c) = None.
Proof.
  unfold Wire.candidate_question, Wire.obj; simpl.
  now destruct (cq_question c), (cq_options c), (cq_difficulty c), (cq_category c).
Qed.

Lemma question_correctAnswer q :
  Wire.member "correctAnswer" (Wire.question q) = JNum <$> q_correctAnswer q.
Proof.
  unfold Wire.question, Wire.obj; simpl.
  now destruct (q_question q), (q_options q), (q_correctAnswer q),
               (q_difficulty q), (q_category q), (q_updatedAt q).
Qed.

Lemma with_challenges_assessment {Q} (enc : Q -> json) message (b : WithChallenges Q) :
  Wire.member "assessment" (Wire.with_challenges enc message b) =
  Some (Wire.obj (Wire.assessment_props (wc_assessment b) ++
                  [("challenges", Some (JArr (map enc (wc_challenges b))))])).
Proof. reflexivity. Qed.

(** C5. Whenever the candidate view is granted, the assessment object
    it sends has no [password] member and none of the questions it
    sends has a [correctAnswer] member, while the authoring view of the
    same id sends the stored password and, with every question, its
    stored correct answer. *)
Theorem candidate_view_redacted id cred d b :
  get_take id cred d = Json 200 b ->
  (exists ja jqs,
     Wire.member "assessment" (Wire.take_body b) = Some ja /\
     Wire.member "password" ja = None /\
     Wire.member "challenges" ja = Some (JArr jqs) /\
     jqs = map Wire.candidate_question (wc_challenges b) /\
     Forall (fun jq => Wire.member "correctAnswer" jq = None) jqs) /\
  (exists a b' ja',
     getAssessment id d = Some a /\
     get_assessment id d = Json 200 b' /\
     wc_challenges b = map candidate_view (wc_challenges b') /\
     Wire.member "assessment" (Wire.authoring_body b') = Some ja' /\
     Wire.member "password" ja' = JStr <$> a_password a /\
     Wire.member "challenges" ja' = Some (JArr (map Wire.question (wc_challenges b'))) /\
     Forall (fun q => Wire.member "correctAnswer" (Wire.question q) = JNum <$> q_correctAnswer q)
            (wc_challenges b')).
Proof.
  unfold get_take, get_assessment.
  destruct (getAssessment id d) as [a|]; [|discriminate].
  destruct (password_mismatch a cred); [discriminate|].
  intros [= <-]. unfold Wire.take_body, Wire.authoring_body. split.
  - eexists _, _. split; [apply with_challenges_assessment|].
    cbn [wc_assessment wc_challenges].
    split; [apply take_body_no_password|].
    split; [apply take_body_challenges|].
    split; [reflexivity|].
    apply Forall_forall. intros jq Hin.
    apply list_elem_of_In, in_map_iff in Hin as (c & <- & _).
    apply candidate_question_no_correctAnswer.
  - eexists a, _, _. split; [reflexivity|]. split; [reflexivity|].
    split; [reflexivity|].
    split; [apply with_challenges_assessment|].
    cbn [wc_assessment wc_challenges].
    split; [apply authoring_body_password|].
    split; [apply take_body_challenges|].
    apply Forall_forall. intros q _. apply question_correctAnswer.
Qed.

(** A gated assessment, fetched with its secret: the authoring body has
    the password and the answer, the candidate body has neither. *)
Lemma candidate_view_redacted_witness :
  let d := db [q1] (quiz ["1"] 70 (Some "abc123")) in
  exists b ja,
    get_take "10" (Some "abc123") d = Json 200 b /\
    Wire.member "assessment" (Wire.take_body b) = Some ja /\
    Wire.member "password" ja = None /\
    Wire.member "challenges" ja = Some (JArr (map Wire.candidate_question (wc_challenges b))) /\
    Forall (fun jq => Wire.member "correctAnswer" jq = None)
           (map Wire.candidate_question (wc_challenges b)).
Proof.
  intros d0. eexists.
  destruct (candidate_view_redacted "10" (Some "abc123") d0 _ eq_refl)
    as [(ja & jqs & H1 & H2 & H3 & -> & H5) _].
  exists ja. split; [reflexivity|]. repeat split; assumption.
Defined.

End Gate.

(* ===================================================================== *)
(** ** Updating a question *)
(* ===================================================================== *)

Section Update.
Import JSONDatabase Server Sample.

Lemma updateQuestion_found e id updates w index old :
  list_find (fun q => q_id q = id) (questions (data w)) = Some (index, old) ->
  updateQuestion e id updates w =
    let updated := merge_question old updates (iso e) in
    let d' := set_questions (fun qs => <[index := updated]> qs) (data w) in
    if fs_ok e
    then (Returned (Some updated), mkWorld d' (write_file Questions d' (files w)))
    else (Thrown "Failed to save questions", mkWorld d' (files w)).
Proof.
  intros Hf. unfold updateQuestion. rewrite Hf.
  rewrite run_store_update. reflexivity.
Qed.

(** An id that is not in the store: [null], and nothing changes. *)
Lemma updateQuestion_missing e id updates w :
  list_find (fun q => q_id q = id) (questions (data w)) = None ->
  updateQuestion e id updates w = (Returned None, w).
Proof. intros Hf. unfold updateQuestion. now rewrite Hf. Qed.

(** The method itself keeps every field whose key the updates object
    does not have. *)
Lemma merge_question_absent old stamp :
  merge_question old (mkQuestionUpdates Absent Absent Absent Absent Absent) stamp =
  mkQuestion (q_id old) (q_question old) (q_options old) (q_correctAnswer old)
    (q_difficulty old) (q_category old) (q_createdAt old) (Some stamp).
Proof. reflexivity. Qed.

(** The route always passes the five keys: what is stored after a PUT
    holds, in each of the five fields, what the body holds there, the
    missing ones as [undefined]. *)
Lemma merge_question_updates_of old body stamp :
  merge_question old (updates_of body) stamp =
  mkQuestion (q_id old) (body_question body) (body_options body) (body_correctAnswer body)
    (body_difficulty body) (body_category body) (q_createdAt old) (Some stamp).
Proof. reflexivity. Qed.

Lemma put_challenge_found e id body w index old :
  list_find (fun q => q_id q = id) (questions (data w)) = Some (index, old) ->
  put_challenge e id body w =
    let updated := merge_question old (updates_of body) (iso e) in
    let d' := set_questions (fun qs => <[index := updated]> qs) (data w) in
    if fs_ok e
    then (Json 200 updated, mkWorld d' (write_file Questions d' (files w)))
    else (Error 500 "Failed to update question" false, mkWorld d' (files w)).
Proof.
  intros Hf. unfold put_challenge, handle.
  unfold mbind at 1, M_bind at 1.
  rewrite (updateQuestion_found _ _ _ _ _ _ Hf); simpl.
  destruct (fs_ok e); reflexivity.
Qed.

(** A PUT for an id that is not stored answers 404 and creates
    nothing. *)
Lemma put_challenge_missing e id body w :
  list_find (fun q => q_id q = id) (questions (data w)) = None ->
  put_challenge e id body w = (Error 404 "Question not found" false, w).
Proof.
  intros Hf. unfold put_challenge, handle.
  unfold mbind at 1, M_bind at 1.
  now rewrite (updateQuestion_missing _ _ _ _ Hf).
Qed.

(** C3, the code at a partial update. The first sample question is
    updated with a body that supplies the prompt only. The reply and the
    store then hold the new prompt and the time stamp, and [undefined]
    for the options, the correct answer, the difficulty and the
    category, which the request did not mention. *)
Theorem put_challenge_drops_unsupplied_fields :
  let body := mkQuestionCreateRequest (Some "What is 1 + 3?") None None None None in
  let w := world [q1; q2] (quiz ["1"; "2"] 70 None) in
  exists updated,
    fst (put_challenge (env true) "1" body w) = Json 200 updated /\
    questions (data (snd (put_challenge (env true) "1" body w))) = [updated; q2] /\
    q_question updated = Some "What is 1 + 3?" /\
    q_updatedAt updated = Some (iso (env true)) /\
    q_options q1 = Some ["3"; "4"; "5"; "6"] /\ q_options updated = None /\
    q_correctAnswer q1 = Some 1 /\ q_correctAnswer updated = None /\
    q_difficulty q1 = Some easy /\ q_difficulty updated = None /\
    q_category q1 = Some "Math" /\ q_category updated = None.
Proof. eexists. repeat split. Qed.

(** After such an update the unanswered question counts as answered
    correctly: [undefined === undefined]. *)
Lemma unanswered_scores_after_partial_update :
  let body := mkQuestionCreateRequest (Some "What is 1 + 3?") None None None None in
  let w := snd (put_challenge (env true) "1" body (world [q1; q2] (quiz ["1"; "2"] 70 None))) in
  correctCount (data w) ∅ ["1"; "2"] = 1%nat.
Proof. reflexivity. Qed.

End Update.

(* ===================================================================== *)
(** ** Creating a question: the correct answer and the options *)
(* ===================================================================== *)

Section Create.
Import JSONDatabase Server Sample.

Lemma post_challenge_eval e body w :
  post_challenge e body w =
    let q := newQuestion e (question_data body) in
    let d' := set_questions (fun qs => (qs ++ [q])%list) (data w) in
    if fs_ok e
    then (Json 201 q, mkWorld d' (write_file Questions d' (files w)))
    else (Error 500 "Failed to create question" false, mkWorld d' (files w)).
Proof.
  unfold post_challenge, handle.
  unfold createQuestion, mbind at 1, M_bind at 1.
  rewrite run_store_update. destruct (fs_ok e); reflexivity.
Qed.

Lemma post_challenge_questions e body w :
  questions (data (snd (post_challenge e body w))) =
  (questions (data w) ++ [newQuestion e (question_data body)])%list.
Proof. rewrite post_challenge_eval; simpl. now destruct (fs_ok e). Qed.

Lemma find_fresh_snoc (id : string) (l : list Question) (q : Question) :
  id ∉ q_id <$> l -> q_id q = id ->
  find (fun x => bool_decide (q_id x = id)) (l ++ [q]) = Some q.
Proof.
  intros Hfresh Hq. induction l as [|x l IH]; simpl.
  - now rewrite bool_decide_eq_true_2.
  - rewrite fmap_cons, not_elem_of_cons in Hfresh. destruct Hfresh as [Hx Hl].
    rewrite bool_decide_eq_false_2 by congruence. now apply IH.
Qed.

Lemma run_op_valid w op :
  in_range_op op ->
  Forall valid_question (questions (data w)) ->
  Forall valid_question (questions (data (run_op w op))).
Proof.
  intros Hop Hw. destruct op as [e body|e id body]; simpl in *.
  - rewrite post_challenge_questions. apply Forall_app. split; [assumption|].
    constructor; [exact Hop | constructor].
  - destruct (list_find (fun q => q_id q = id) (questions (data w))) as [[i old]|] eqn:Hf.
    + rewrite (put_challenge_found _ _ _ _ _ _ Hf); simpl.
      assert (Forall valid_question (<[i := merge_question old (updates_of body) (iso e)]>
                                       (questions (data w)))).
      { apply Forall_insert; [assumption|].
        unfold valid_question; simpl.
        now destruct (body_correctAnswer body), (body_options body). }
      now destruct (fs_ok e).
    + now rewrite (put_challenge_missing _ _ _ _ Hf).
Qed.

(** C4 (amended). Creation validates nothing and rejects no input: the
    stored record holds the supplied correctAnswer (0 when absent) and
    the supplied options (none when absent) as they came, so the bound
    [0 <= correctAnswer < len(options)] holds for the stored record
    exactly when it holds for the input; when the new id is not already
    in use, fetching it returns that record. The bound holds for every
    stored question after any sequence of creations and updates each of
    which supplies a correct answer within its options. *)
Theorem create_stores_answer_as_supplied e body w :
  let q := newQuestion e (question_data body) in
  let w' := snd (post_challenge e body w) in
  questions (data w') = (questions (data w) ++ [q])%list /\
  (fs_ok e = true -> fst (post_challenge e body w) = Json 201 q) /\
  q_correctAnswer q = Some (JS.or_number (body_correctAnswer body) 0) /\
  q_options q = Some (JS.or_object (body_options body) []) /\
  (valid_question q <->
     in_range (JS.or_number (body_correctAnswer body) 0) (JS.or_object (body_options body) [])) /\
  (q_id q ∉ q_id <$> questions (data w) -> get_challenge (q_id q) (data w') = Json 200 q) /\
  (forall ops,
     Forall in_range_op ops ->
     Forall valid_question (questions (data w)) ->
     Forall valid_question (questions (data (fold_left run_op ops w)))).
Proof.
  intros q w'. subst w'. split; [apply post_challenge_questions|].
  split. { intros Hok. rewrite post_challenge_eval; simpl. now rewrite Hok. }
  split; [reflexivity|]. split; [reflexivity|]. split; [reflexivity|].
  split.
  - intros Hfresh. unfold get_challenge, getQuestion.
    rewrite post_challenge_questions. fold q.
    now rewrite (find_fresh_snoc (q_id q) _ q Hfresh eq_refl).
  - intros ops. clear q. revert w.
    induction ops as [|op ops IH]; intros w Hops Hw; [exact Hw|].
    apply Forall_cons in Hops as [Hop Hops]. simpl.
    apply IH; [assumption|]. now apply run_op_valid.
Qed.

(** A question with four options and the second one correct is
    created, then updated to two options with the first one correct. *)
Lemma create_stores_answer_as_supplied_witness :
  let create := mkQuestionCreateRequest (Some "What is 2 + 2?") (Some ["3"; "4"; "5"; "6"])
                  (Some 1) (Some easy) (Some "Math") in
  let update := mkQuestionCreateRequest None (Some ["4"; "5"]) (Some 0) None None in
  get_challenge "1700000000000" (data (snd (post_challenge (env true) create empty_world)))
    = Json 200 (newQuestion (env true) (question_data create)) /\
  Forall valid_question
    (questions (data (fold_left run_op
                        [Create (env true) create; Update (env true) "1700000000000" update]
                        empty_world))).
Proof.
  intros create update.
  pose proof (create_stores_answer_as_supplied (env true) create empty_world)
    as (_ & _ & _ & _ & _ & Hget & Hseq).
  split.
  - apply Hget. vm_compute. apply not_elem_of_nil.
  - apply Hseq; [|constructor].
    repeat (apply Forall_cons; split); [| |apply Forall_nil];
      unfold in_range_op, in_range; simpl; lia.
Defined.

(** C4 as stated fails: a question whose correct answer is 7 with two
    options is accepted with 201, stored, and returned by the fetch. *)
Lemma create_out_of_range_counterexample :
  let body := mkQuestionCreateRequest (Some "Pick one") (Some ["yes"; "no"])
                (Some 7) (Some easy) (Some "Misc") in
  exists q,
    post_challenge (env true) body empty_world
      = (Json 201 q, mkWorld (mkDatabase [q] [] []) (mkDatabase [q] [] [])) /\
    get_challenge (q_id q) (mkDatabase [q] [] []) = Json 200 q /\
    q_correctAnswer q = Some 7 /\ q_options q = Some ["yes"; "no"] /\
    ~ valid_question q.
Proof.
  eexists. split; [reflexivity|]. repeat split.
  unfold valid_question, in_range; simpl. lia.
Qed.

End Create.

(* ===================================================================== *)
(** ** Identifiers *)
(* ===================================================================== *)

Section Identifiers.
Import JSONDatabase Server Sample.

Lemma toString_inj t1 t2 : JS.toString t1 = JS.toString t2 -> t1 = t2.
Proof. unfold JS.toString. apply (inj pretty). Qed.

Lemma stamped_before_fresh t ids :
  stamped_before t ids -> JS.toString t ∉ ids.
Proof.
  intros Hs Hin. unfold stamped_before in Hs. rewrite Forall_forall in Hs.
  destruct (Hs _ Hin) as (t' & Hlt & Heq).
  apply toString_inj in Heq. lia.
Qed.

(** One creation at clock reading [t] in a collection whose ids were
    all stamped earlier. *)
Lemma stamped_before_snoc t ids :
  stamped_before t ids -> NoDup ids ->
  (JS.toString t ∉ ids) /\
  NoDup (ids ++ [JS.toString t])%list /\
  stamped_before (t + 1) (ids ++ [JS.toString t])%list.
Proof.
  intros Hs Hnd. pose proof (stamped_before_fresh _ _ Hs) as Hfresh.
  split; [exact Hfresh|]. split.
  - apply NoDup_app. split; [exact Hnd|]. split; [|apply NoDup_singleton].
    intros x Hx Hx'. apply list_elem_of_singleton in Hx'. now subst.
  - apply Forall_app. split.
    + eapply Forall_impl; [exact Hs|].
      intros i (t' & Hlt & ->). exists t'. split; [lia|reflexivity].
    + constructor; [|constructor]. exists t. split; [lia|reflexivity].
Qed.

Lemma createQuestion_ids e qd w :
  q_id <$> questions (data (snd (createQuestion e qd w))) =
  ((q_id <$> questions (data w)) ++ [JS.toString (now e)])%list.
Proof.
  unfold createQuestion. rewrite run_store_update.
  destruct (fs_ok e); simpl; now rewrite fmap_app.
Qed.

Lemma createAssessment_ids e ad w :
  a_id <$> assessments (data (snd (createAssessment e ad w))) =
  ((a_id <$> assessments (data w)) ++ [JS.toString (now e)])%list.
Proof.
  unfold createAssessment. rewrite run_store_update.
  destruct (fs_ok e); simpl; now rewrite fmap_app.
Qed.

Lemma createSubmission_ids e sd w :
  s_id <$> submissions (data (snd (createSubmission e sd w))) =
  ((s_id <$> submissions (data w)) ++ [JS.toString (now e)])%list.
Proof.
  unfold createSubmission. rewrite run_store_update.
  destruct (fs_ok e); simpl; now rewrite fmap_app.
Qed.

(** An update keeps the ids, position by position. *)
Lemma updateQuestion_ids e id updates w :
  q_id <$> questions (data (snd (updateQuestion e id updates w))) =
  q_id <$> questions (data w).
Proof.
  destruct (list_find (fun q => q_id q = id) (questions (data w))) as [[i old]|] eqn:Hf.
  - rewrite (updateQuestion_found _ _ _ _ _ _ Hf).
    apply list_find_Some in Hf as (Hi & _ & _).
    assert (q_id <$> <[i := merge_question old updates (iso e)]> (questions (data w))
            = q_id <$> questions (data w)) as Hids.
    { rewrite list_fmap_insert. apply list_insert_id.
      rewrite list_lookup_fmap, Hi. reflexivity. }
    simpl. now destruct (fs_ok e).
  - now rewrite (updateQuestion_missing _ _ _ _ Hf).
Qed.

(** A deletion takes one id out. *)
Lemma deleteQuestion_ids e id w :
  (q_id <$> questions (data (snd (deleteQuestion e id w))))
    `sublist_of` (q_id <$> questions (data w)).
Proof.
  unfold deleteQuestion.
  destruct (list_find (fun q => q_id q = id) (questions (data w))) as [[i old]|] eqn:Hf;
    [|reflexivity].
  rewrite run_store_update.
  assert ((q_id <$> delete i (questions (data w))) `sublist_of` (q_id <$> questions (data w))).
  { rewrite list_fmap_delete. apply sublist_delete. }
  now destruct (fs_ok e).
Qed.

(** C9 (amended). The identifier a create operation assigns is the
    decimal numeral of the clock reading in milliseconds. In each of the
    three collections it differs from every identifier present, and the
    identifiers stay pairwise distinct, provided the identifiers present
    are distinct numerals of earlier readings: the property is kept as
    long as no two creations in a collection read the same millisecond
    and the clock does not step back. Updates keep the identifiers and
    deletions only remove one. *)
Theorem create_ids_distinct_when_clock_advances e w :
  (forall qd,
     let ids := q_id <$> questions (data w) in
     let ids' := q_id <$> questions (data (snd (createQuestion e qd w))) in
     ids' = (ids ++ [JS.toString (now e)])%list /\
     (stamped_before (now e) ids -> NoDup ids ->
      (JS.toString (now e) ∉ ids) /\ NoDup ids' /\ stamped_before (now e + 1) ids')) /\
  (forall ad,
     let ids := a_id <$> assessments (data w) in
     let ids' := a_id <$> assessments (data (snd (createAssessment e ad w))) in
     ids' = (ids ++ [JS.toString (now e)])%list /\
     (stamped_before (now e) ids -> NoDup ids ->
      (JS.toString (now e) ∉ ids) /\ NoDup ids' /\ stamped_before (now e + 1) ids')) /\
  (forall sd,
     let ids := s_id <$> submissions (data w) in
     let ids' := s_id <$> submissions (data (snd (createSubmission e sd w))) in
     ids' = (ids ++ [JS.toString (now e)])%list /\
     (stamped_before (now e) ids -> NoDup ids ->
      (JS.toString (now e) ∉ ids) /\ NoDup ids' /\ stamped_before (now e + 1) ids')) /\
  (forall id updates,
     q_id <$> questions (data (snd (updateQuestion e id updates w))) =
     q_id <$> questions (data w)) /\
  (forall id,
     NoDup (q_id <$> questions (data w)) ->
     NoDup (q_id <$> questions (data (snd (deleteQuestion e id w))))).
Proof.
  split; [|split; [|split; [|split]]].
  - intros qd ids ids'. subst ids ids'. rewrite createQuestion_ids.
    split; [reflexivity | apply stamped_before_snoc].
  - intros ad ids ids'. subst ids ids'. rewrite createAssessment_ids.
    split; [reflexivity | apply stamped_before_snoc].
  - intros sd ids ids'. subst ids ids'. rewrite createSubmission_ids.
    split; [reflexivity | apply stamped_before_snoc].
  - intros id updates. apply updateQuestion_ids.
  - intros id Hnd. eapply sublist_NoDup; [exact Hnd | apply deleteQuestion_ids].
Qed.

(** Two questions created one millisecond apart. *)
Lemma create_ids_distinct_when_clock_advances_witness :
  let qd := question_data (mkQuestionCreateRequest None None None None None) in
  let w1 := snd (createQuestion (mkEnv 1700000000000 "2023-11-14T22:13:20.000Z" true) qd empty_world) in
  let w2 := snd (createQuestion (mkEnv 1700000000001 "2023-11-14T22:13:20.001Z" true) qd w1) in
  q_id <$> questions (data w2) = ["1700000000000"; "1700000000001"] /\
  NoDup (q_id <$> questions (data w2)).
Proof.
  intros qd w1 w2.
  pose proof (create_ids_distinct_when_clock_advances
                (mkEnv 1700000000001 "2023-11-14T22:13:20.001Z" true) w1)
    as [Hq _].
  destruct (Hq qd) as [Hids Hfresh]. fold w2 in Hids, Hfresh.
  split; [exact Hids|].
  apply Hfresh.
  - constructor; [|constructor]. exists 1700000000000. split; [simpl; lia|reflexivity].
  - apply (bool_decide_unpack _). vm_compute. exact I.
Defined.

(** C9 as stated fails: two questions created within the same
    millisecond get the same identifier, and the fetch by that
    identifier returns the first of them only. *)
Lemma create_same_millisecond_counterexample :
  let first := mkQuestionCreateRequest (Some "First") (Some ["a"; "b"]) (Some 0) None None in
  let second := mkQuestionCreateRequest (Some "Second") (Some ["c"; "d"]) (Some 1) None None in
  let w1 := snd (post_challenge (env true) first empty_world) in
  let w2 := snd (post_challenge (env true) second w1) in
  exists q,
    fst (post_challenge (env true) second w1) = Json 201 q /\
    (q_id q ∈ q_id <$> questions (data w1)) /\
    q_id <$> questions (data w2) = ["1700000000000"; "1700000000000"] /\
    ~ NoDup (q_id <$> questions (data w2)) /\
    get_challenge (q_id q) (data w2) <> Json 200 q.
Proof.
  eexists. split; [reflexivity|]. split; [|split; [reflexivity|split]].
  - vm_compute. apply list_elem_of_here.
  - vm_compute. intros H. apply NoDup_cons in H as [H _].
    apply H, list_elem_of_here.
  - vm_compute. discriminate.
Qed.

End Identifiers.

(* ===================================================================== *)
(** ** Lists searched by identifier *)
(* ===================================================================== *)

Section Keyed.
Context {A : Type} (key : A -> string).

Lemma find_list_find (id : string) (l : list A) :
  find (fun x => bool_decide (key x = id)) l = snd <$> list_find (fun x => key x = id) l.
Proof.
  induction l as [|x l IH]; [reflexivity|]. cbn.
  destruct (decide (key x = id)) as [Heq|Hne].
  - now rewrite bool_decide_eq_true_2.
  - rewrite bool_decide_eq_false_2 by assumption. rewrite IH.
    now destruct (list_find _ l) as [[i y]|].
Qed.

Lemma find_absent (id : string) (l : list A) :
  id ∉ key <$> l -> find (fun x => bool_decide (key x = id)) l = None.
Proof.
  induction l as [|x l IH]; [reflexivity|].
  rewrite fmap_cons, not_elem_of_cons. intros [Hx Hl]. cbn.
  rewrite bool_decide_eq_false_2 by congruence. now apply IH.
Qed.

Lemma find_present (id : string) (l : list A) (x : A) :
  find (fun x => bool_decide (key x = id)) l = Some x -> key x = id /\ x ∈ l.
Proof.
  induction l as [|y l IH]; [discriminate|]. cbn.
  destruct (decide (key y = id)) as [Heq|Hne].
  - rewrite bool_decide_eq_true_2 by assumption. intros [= <-].
    split; [assumption | apply list_elem_of_here].
  - rewrite bool_decide_eq_false_2 by assumption. intros H.
    destruct (IH H) as [? ?]. split; [assumption | now apply list_elem_of_further].
Qed.

Lemma find_insert_found (id : string) (l : list A) (i : nat) (x y : A) :
  list_find (fun x => key x = id) l = Some (i, x) -> key y = id ->
  find (fun x => bool_decide (key x = id)) (<[i := y]> l) = Some y.
Proof.
  revert i. induction l as [|z l IH]; intros i Hf Hy; [discriminate|].
  cbn in Hf. destruct (decide (key z = id)) as [Heq|Hne].
  - injection Hf as <- <-. cbn. now rewrite bool_decide_eq_true_2.
  - destruct (list_find _ l) as [[j u]|] eqn:Hl; [|discriminate].
    cbn in Hf. injection Hf as <- <-. cbn.
    rewrite bool_decide_eq_false_2 by assumption. now apply (IH j).
Qed.

Lemma find_insert_other (id' : string) (l : list A) (i : nat) (x y : A) :
  l !! i = Some x -> key x <> id' -> key y <> id' ->
  find (fun x => bool_decide (key x = id')) (<[i := y]> l) =
  find (fun x => bool_decide (key x = id')) l.
Proof.
  revert i. induction l as [|z l IH]; intros [|i] Hi Hx Hy; try discriminate; cbn in *.
  - injection Hi as ->. now rewrite !bool_decide_eq_false_2.
  - destruct (bool_decide (key z = id')); [reflexivity|]. now apply IH.
Qed.

Lemma find_delete_other (id' : string) (l : list A) (i : nat) (x : A) :
  l !! i = Some x -> key x <> id' ->
  find (fun x => bool_decide (key x = id')) (delete i l) =
  find (fun x => bool_decide (key x = id')) l.
Proof.
  revert i. induction l as [|z l IH]; intros [|i] Hi Hx; try discriminate; cbn in *.
  - injection Hi as ->. now rewrite bool_decide_eq_false_2.
  - destruct (bool_decide (key z = id')); [reflexivity|]. now apply IH.
Qed.

Lemma find_delete_unique (l : list A) (i : nat) (x : A) :
  NoDup (key <$> l) -> l !! i = Some x ->
  find (fun y => bool_decide (key y = key x)) (delete i l) = None.
Proof.
  revert i. induction l as [|z l IH]; intros [|i] Hnd Hi; try discriminate;
    rewrite fmap_cons, NoDup_cons in Hnd; destruct Hnd as [Hz Hnd]; cbn in *.
  - injection Hi as ->. now apply find_absent.
  - rewrite bool_decide_eq_false_2.
    + now apply IH.
    + intros Heq. apply Hz. rewrite Heq.
      apply list_elem_of_fmap_2. eapply list_elem_of_lookup_2. eassumption.
Qed.

End Keyed.

Section TrimTwice.

Lemma trimStart_head_kept c s :
  JS.is_white c = false -> JS.trimStart (String c s) = String c s.
Proof. intros H. simpl. now rewrite H. Qed.

Lemma trimEnd_head_kept c s :
  JS.is_white c = false -> exists t, JS.trimEnd (String c s) = String c t.
Proof.
  intros H. simpl. destruct (JS.trimEnd s); rewrite ?H; eauto.
Qed.

Lemma trimEnd_twice s : JS.trimEnd (JS.trimEnd s) = JS.trimEnd s.
Proof.
  induction s as [|c s IH]; [reflexivity|]. simpl.
  destruct (JS.trimEnd s) as [|c' t] eqn:Ht.
  - destruct (JS.is_white c) eqn:Hc; [reflexivity|]. simpl. now rewrite Hc.
  - change (JS.trimEnd (String c (String c' t))) with
      (match JS.trimEnd (String c' t) with
       | EmptyString => if JS.is_white c then EmptyString else String c EmptyString
       | u => String c u
       end).
    now rewrite IH.
Qed.

Lemma trimStart_shape s :
  JS.trimStart s = EmptyString \/
  exists c t, JS.trimStart s = String c t /\ JS.is_white c = false.
Proof.
  induction s as [|c s IH]; [now left|]. simpl.
  destruct (JS.is_white c) eqn:Hc; [exact IH|]. right. eauto.
Qed.

(** Trimming what is trimmed changes nothing. *)
Lemma trim_twice s : JS.trim (JS.trim s) = JS.trim s.
Proof.
  unfold JS.trim.
  destruct (trimStart_shape s) as [->|(c & t & -> & Hc)]; [reflexivity|].
  destruct (trimEnd_head_kept c t Hc) as [u Hu].
  rewrite Hu, (trimStart_head_kept c u Hc), <- Hu. apply trimEnd_twice.
Qed.

End TrimTwice.

(* ===================================================================== *)
(** ** Deleting and updating a question, and reading it back *)
(* ===================================================================== *)

Section ReadBack.
Import JSONDatabase Server Sample.

Lemma getQuestion_list_find id d :
  getQuestion id d = snd <$> list_find (fun q => q_id q = id) (questions d).
Proof. apply (find_list_find q_id). Qed.

Lemma getQuestion_index id d q :
  getQuestion id d = Some q ->
  exists i, list_find (fun q => q_id q = id) (questions d) = Some (i, q).
Proof.
  rewrite getQuestion_list_find.
  destruct (list_find _ _) as [[i x]|]; [|discriminate].
  intros [= <-]. eauto.
Qed.

Lemma getQuestion_None_list_find id d :
  getQuestion id d = None ->
  list_find (fun q => q_id q = id) (questions d) = None.
Proof.
  rewrite getQuestion_list_find.
  now destruct (list_find _ _) as [[i x]|].
Qed.

Lemma delete_challenge_found e id w i q :
  list_find (fun q => q_id q = id) (questions (data w)) = Some (i, q) ->
  delete_challenge e id w =
    let d' := set_questions (fun qs => delete i qs) (data w) in
    if fs_ok e
    then (Json 200 tt, mkWorld d' (write_file Questions d' (files w)))
    else (Error 500 "Failed to delete question" false, mkWorld d' (files w)).
Proof.
  intros Hf. unfold delete_challenge, handle, deleteQuestion.
  unfold mbind at 1, M_bind at 1. rewrite Hf, run_store_update.
  destruct (fs_ok e); reflexivity.
Qed.

Lemma delete_challenge_missing e id w :
  list_find (fun q => q_id q = id) (questions (data w)) = None ->
  delete_challenge e id w = (Error 404 "Question not found" false, w).
Proof.
  intros Hf. unfold delete_challenge, handle, deleteQuestion.
  unfold mbind at 1, M_bind at 1. now rewrite Hf.
Qed.

Lemma delete_challenge_frame e id w :
  assessments (data (snd (delete_challenge e id w))) = assessments (data w) /\
  submissions (data (snd (delete_challenge e id w))) = submissions (data w).
Proof.
  destruct (list_find (fun q => q_id q = id) (questions (data w))) as [[i q]|] eqn:Hf.
  - rewrite (delete_challenge_found _ _ _ _ _ Hf). simpl. now destruct (fs_ok e).
  - now rewrite (delete_challenge_missing _ _ _ Hf).
Qed.

(** X1. Deleting a question touches the question collection only: the
    assessments and the submissions, in memory and on file, are what they
    were, whether or not they refer to the question; an id that is not
    stored gets 404 and changes nothing at all. *)
Theorem delete_challenge_no_cascade e id w :
  let w' := snd (delete_challenge e id w) in
  assessments (data w') = assessments (data w) /\
  submissions (data w') = submissions (data w) /\
  assessments (files w') = assessments (files w) /\
  submissions (files w') = submissions (files w) /\
  (getQuestion id (data w) = None ->
   delete_challenge e id w = (Error 404 "Question not found" false, w)).
Proof.
  destruct (list_find (fun q => q_id q = id) (questions (data w))) as [[i q]|] eqn:Hf.
  - rewrite (delete_challenge_found _ _ _ _ _ Hf). simpl.
    destruct (fs_ok e); simpl; repeat split; try reflexivity;
      intros Hn; apply getQuestion_None_list_find in Hn; congruence.
  - rewrite (delete_challenge_missing _ _ _ Hf). simpl. repeat split.
Qed.

(** X2. When the stored ids are distinct, a delete of a stored id is
    answered 200 (if the file is written), the id then no longer
    resolves, and every other id resolves to what it did before. *)
Theorem delete_then_get e id w q :
  NoDup (q_id <$> questions (data w)) ->
  getQuestion id (data w) = Some q ->
  let w' := snd (delete_challenge e id w) in
  (fs_ok e = true -> fst (delete_challenge e id w) = Json 200 tt) /\
  get_challenge id (data w') = Error 404 "Question not found" false /\
  (forall id', id' <> id -> getQuestion id' (data w') = getQuestion id' (data w)).
Proof.
  intros Hnd Hq. destruct (getQuestion_index _ _ _ Hq) as [i Hf].
  rewrite (delete_challenge_found _ _ _ _ _ Hf).
  apply list_find_Some in Hf as (Hi & Hid & _).
  assert (Hgone : getQuestion id (set_questions (fun qs => delete i qs) (data w)) = None).
  { unfold getQuestion; simpl. rewrite <- Hid. now apply (find_delete_unique q_id). }
  assert (Hother : forall id', id' <> id ->
            getQuestion id' (set_questions (fun qs => delete i qs) (data w)) =
            getQuestion id' (data w)).
  { intros id' Hne. unfold getQuestion; simpl.
    apply (find_delete_other q_id id' _ i q Hi). congruence. }
  unfold get_challenge. destruct (fs_ok e); simpl; rewrite Hgone;
    repeat split; try assumption; try reflexivity; discriminate.
Qed.

Lemma delete_then_get_witness :
  let w' := snd (delete_challenge (env true) "1" (world [q1; q2] (quiz ["1"; "2"] 70 None))) in
  get_challenge "1" (data w') = Error 404 "Question not found" false /\
  getQuestion "2" (data w') = Some q2.
Proof.
  intros w'.
  destruct (delete_then_get (env true) "1" (world [q1; q2] (quiz ["1"; "2"] 70 None)) q1)
    as (_ & Hgone & Hother).
  - apply (bool_decide_unpack _). vm_compute. exact I.
  - reflexivity.
  - split; [exact Hgone|]. rewrite Hother by discriminate. reflexivity.
Defined.

(** X3. An update of a stored id can be read back at once, also when the
    file could not be written: the fetch by that id returns the merged
    record, with the id and the creation time of the old one and the new
    time stamp; every other id resolves to what it did before, and the
    number of questions is the same. *)
Theorem put_then_get e id body w old :
  getQuestion id (data w) = Some old ->
  let w' := snd (put_challenge e id body w) in
  let updated := merge_question old (updates_of body) (iso e) in
  get_challenge id (data w') = Json 200 updated /\
  q_id updated = id /\ q_createdAt updated = q_createdAt old /\
  q_updatedAt updated = Some (iso e) /\
  (forall id', id' <> id -> getQuestion id' (data w') = getQuestion id' (data w)) /\
  length (questions (data w')) = length (questions (data w)).
Proof.
  intros Hq. destruct (getQuestion_index _ _ _ Hq) as [i Hf].
  rewrite (put_challenge_found _ _ _ _ _ _ Hf).
  pose proof Hf as Hf'. apply list_find_Some in Hf' as (Hi & Hid & _).
  set (updated := merge_question old (updates_of body) (iso e)).
  assert (Hget : getQuestion id (set_questions (fun qs => <[i := updated]> qs) (data w))
                 = Some updated).
  { unfold getQuestion; simpl. now apply (find_insert_found q_id id _ i old). }
  assert (Hother : forall id', id' <> id ->
            getQuestion id' (set_questions (fun qs => <[i := updated]> qs) (data w)) =
            getQuestion id' (data w)).
  { intros id' Hne. unfold getQuestion; simpl.
    apply (find_insert_other q_id id' _ i old updated Hi); simpl; congruence. }
  unfold get_challenge.
  destruct (fs_ok e); simpl; rewrite Hget;
    (split; [reflexivity|]); (split; [exact Hid|]);
    (split; [reflexivity|]); (split; [reflexivity|]);
    (split; [exact Hother|]); apply length_insert.
Qed.

Lemma put_then_get_witness :
  let body := mkQuestionCreateRequest (Some "What is 2 + 3?") (Some ["4"; "5"]) (Some 1)
                (Some easy) (Some "Math") in
  let w' := snd (put_challenge (env false) "1" body (world [q1; q2] (quiz ["1"; "2"] 70 None))) in
  get_challenge "1" (data w') =
    Json 200 (mkQuestion "1" (Some "What is 2 + 3?") (Some ["4"; "5"]) (Some 1) (Some easy)
                (Some "Math") (q_createdAt q1) (Some (iso (env false)))) /\
  getQuestion "2" (data w') = Some q2.
Proof.
  intros body w'.
  destruct (put_then_get (env false) "1" body (world [q1; q2] (quiz ["1"; "2"] 70 None)) q1
              eq_refl) as (Hget & _ & _ & _ & Hother & _).
  split; [exact Hget|]. rewrite Hother by discriminate. reflexivity.
Defined.

End ReadBack.

(* ===================================================================== *)
(** ** What sequences of requests keep *)
(* ===================================================================== *)

Section Sequences.
Import JSONDatabase Server Sample.

Lemma post_assessment_eval e body w :
  post_assessment e body w =
    let a := newAssessment e (assessment_data body) in
    let d' := set_assessments (fun l => (l ++ [a])%list) (data w) in
    if fs_ok e
    then (Json 201 (without_password a), mkWorld d' (write_file Assessments d' (files w)))
    else (Error 500 "Failed to create assessment" false, mkWorld d' (files w)).
Proof.
  unfold post_assessment, handle, createAssessment.
  unfold mbind at 1, M_bind at 1. rewrite run_store_update.
  destruct (fs_ok e); reflexivity.
Qed.

Lemma post_submit_missing e id body w :
  getAssessment id (data w) = None ->
  post_submit e id body w = (Error 404 "Assessment not found" false, w).
Proof. intros Ha. unfold post_submit, handle. now rewrite Ha. Qed.

Lemma post_submit_blank e id body w a :
  getAssessment id (data w) = Some a ->
  blank_email body ->
  post_submit e id body w = (Error 400 "Candidate email is required" false, w).
Proof.
  intros Ha Hb. apply blank_email_trim in Hb.
  unfold post_submit, handle. rewrite Ha, Hb. reflexivity.
Qed.

Lemma blank_email_dec body : blank_email body \/ ~ blank_email body.
Proof.
  unfold blank_email. destruct (body_candidateEmail body) as [s|]; [|now left].
  destruct (whitespace_only s); [now left | right; discriminate].
Qed.

Lemma or_number_nonzero x d : d <> 0 -> JS.or_number x d <> 0.
Proof.
  intros Hd. unfold JS.or_number, JS.truthy_number.
  destruct x as [n|]; [|assumption].
  destruct (Z.eqb_spec n 0); simpl; assumption.
Qed.

Lemma or_undefined_not_empty x : JS.or_undefined x <> Some EmptyString.
Proof.
  unfold JS.or_undefined. destruct x as [s|]; [|discriminate].
  destruct (JS.truthy_string s) eqn:Hs; [|discriminate].
  intros [= ->]. discriminate.
Qed.

Lemma newAssessment_normalised e body : normalised (newAssessment e (assessment_data body)).
Proof.
  repeat split; simpl.
  - now apply or_number_nonzero.
  - now apply or_number_nonzero.
  - apply or_undefined_not_empty.
Qed.

(** X4. The create-assessment route stores the title, the description and
    the selection of the body (empty when absent), a time limit and a
    passing score that are never 0 (30 and 70 replace a missing or zero
    value) and a password that is never the empty string; the reply is
    the stored assessment without its password. *)
Theorem post_assessment_normalises e body w :
  let a := newAssessment e (assessment_data body) in
  assessments (data (snd (post_assessment e body w))) = (assessments (data w) ++ [a])%list /\
  (fs_ok e = true -> fst (post_assessment e body w) = Json 201 (without_password a)) /\
  a_id a = JS.toString (now e) /\
  a_selectedChallenges a = default [] (body_selectedChallenges body) /\
  a_timeLimit a = (if decide (default 0 (body_timeLimit body) = 0) then 30
                   else default 0 (body_timeLimit body)) /\
  a_passingScore a = (if decide (default 0 (body_passingScore body) = 0) then 70
                      else default 0 (body_passingScore body)) /\
  a_password a = (if decide (default EmptyString (body_password body) = EmptyString) then None
                  else body_password body) /\
  normalised a.
Proof.
  intros a. rewrite post_assessment_eval.
  split; [now destruct (fs_ok e)|].
  split; [now intros ->|].
  split; [reflexivity|]. split; [reflexivity|].
  split; [|split; [|split; [|apply newAssessment_normalised]]]; subst a; simpl.
  - unfold JS.or_number, JS.truthy_number.
    destruct (body_timeLimit body) as [n|]; simpl; [|reflexivity].
    destruct (Z.eqb_spec n 0); destruct (decide (n = 0)); simpl; congruence.
  - unfold JS.or_number, JS.truthy_number.
    destruct (body_passingScore body) as [n|]; simpl; [|reflexivity].
    destruct (Z.eqb_spec n 0); destruct (decide (n = 0)); simpl; congruence.
  - unfold JS.or_undefined, JS.truthy_string.
    destruct (body_password body) as [s|]; simpl; [|reflexivity].
    destruct (String.eqb_spec s EmptyString); destruct (decide (s = EmptyString));
      simpl; congruence.
Qed.

(** What one request does to the assessments and to the submissions. *)
Lemma call_assessments w c :
  assessments (data (call w c)) = assessments (data w) \/
  exists e body, assessments (data (call w c)) =
                 (assessments (data w) ++ [newAssessment e (assessment_data body)])%list.
Proof.
  destruct c as [e body|e id body|e id|e body|e id body]; simpl.
  - left. rewrite post_challenge_eval. simpl. now destruct (fs_ok e).
  - left. destruct (list_find (fun q => q_id q = id) (questions (data w))) as [[i q]|] eqn:Hf.
    + rewrite (put_challenge_found _ _ _ _ _ _ Hf). simpl. now destruct (fs_ok e).
    + now rewrite (put_challenge_missing _ _ _ _ Hf).
  - left. apply delete_challenge_frame.
  - right. exists e, body. rewrite post_assessment_eval. simpl. now destruct (fs_ok e).
  - left. destruct (getAssessment id (data w)) as [a|] eqn:Ha.
    + destruct (blank_email_dec body) as [Hb|Hb].
      * now rewrite (post_submit_blank e id body w a Ha Hb).
      * rewrite (post_submit_accepted _ _ _ _ _ Ha Hb). simpl. now destruct (fs_ok e).
    + now rewrite (post_submit_missing _ _ _ _ Ha).
Qed.

Lemma submitted_graded e id body d a :
  ~ blank_email body -> graded (submitted e id body d a).
Proof.
  intros Hb. unfold graded, submitted, newSubmission, grade; simpl.
  split; [|split; [reflexivity|split]].
  - rewrite correctCount_filter. apply length_filter.
  - apply trim_twice.
  - intros Ht. apply Hb, blank_email_trim. exact Ht.
Qed.

Lemma call_submissions w c :
  submissions (data (call w c)) = submissions (data w) \/
  exists s, graded s /\
            submissions (data (call w c)) = (submissions (data w) ++ [s])%list.
Proof.
  destruct c as [e body|e id body|e id|e body|e id body]; simpl.
  - left. rewrite post_challenge_eval. simpl. now destruct (fs_ok e).
  - left. destruct (list_find (fun q => q_id q = id) (questions (data w))) as [[i q]|] eqn:Hf.
    + rewrite (put_challenge_found _ _ _ _ _ _ Hf). simpl. now destruct (fs_ok e).
    + now rewrite (put_challenge_missing _ _ _ _ Hf).
  - left. apply delete_challenge_frame.
  - left. rewrite post_assessment_eval. simpl. now destruct (fs_ok e).
  - destruct (getAssessment id (data w)) as [a|] eqn:Ha.
    + destruct (blank_email_dec body) as [Hb|Hb].
      * left. now rewrite (post_submit_blank e id body w a Ha Hb).
      * right. exists (submitted e id body (data w) a).
        split; [now apply submitted_graded|]. now apply post_submit_stored.
    + left. now rewrite (post_submit_missing _ _ _ _ Ha).
Qed.

(** X5. No sequence of requests takes anything away from the assessments
    or from the submissions, or changes one of them: what was stored is
    still there, in the same order, at the front of the collection. *)
Theorem calls_only_append w cs :
  assessments (data w) `prefix_of` assessments (data (calls w cs)) /\
  submissions (data w) `prefix_of` submissions (data (calls w cs)).
Proof.
  revert w. induction cs as [|c cs IH]; intros w; [split; reflexivity|].
  unfold calls in *. simpl. destruct (IH (call w c)) as [IHa IHs]. split.
  - etransitivity; [|exact IHa].
    destruct (call_assessments w c) as [->|(e & body & ->)];
      [reflexivity | now apply prefix_app_r].
  - etransitivity; [|exact IHs].
    destruct (call_submissions w c) as [->|(s & _ & ->)];
      [reflexivity | now apply prefix_app_r].
Qed.

Lemma calls_normalised w cs :
  Forall normalised (assessments (data w)) ->
  Forall normalised (assessments (data (calls w cs))).
Proof.
  revert w. induction cs as [|c cs IH]; intros w Hw; [exact Hw|].
  unfold calls in *. simpl. apply IH.
  destruct (call_assessments w c) as [->|(e & body & ->)]; [exact Hw|].
  apply Forall_app. split; [exact Hw|].
  constructor; [apply newAssessment_normalised | constructor].
Qed.

(** X6. Through any sequence of requests every stored assessment keeps a
    passing score and a time limit other than 0 and a password other than
    the empty string, if that held at the start (as it does for the empty
    store). *)
Theorem calls_keep_assessments_normalised w cs :
  Forall normalised (assessments (data w)) ->
  Forall normalised (assessments (data (calls w cs))).
Proof. apply calls_normalised. Qed.

Lemma calls_keep_assessments_normalised_witness :
  Forall normalised
    (assessments (data (calls empty_world
       [PostAssessment (env true)
          (mkAssessmentCreateRequest (Some "Quiz") None (Some ["1"]) (Some 0) (Some 0)
             (Some EmptyString));
        PostSubmit (env true) "1700000000000" (request "a@b.c" [])]))).
Proof. apply calls_keep_assessments_normalised. constructor. Defined.

(** X7. Every submission a sequence of requests adds has a number of
    correct answers that does not exceed its total, the score computed
    from those two numbers, and a candidate e-mail that is trimmed and
    not empty. *)
Theorem calls_keep_submissions_graded w cs :
  Forall graded (submissions (data w)) ->
  Forall graded (submissions (data (calls w cs))).
Proof.
  revert w. induction cs as [|c cs IH]; intros w Hw; [exact Hw|].
  unfold calls in *. simpl. apply IH.
  destruct (call_submissions w c) as [->|(s & Hs & ->)]; [exact Hw|].
  apply Forall_app. split; [exact Hw|]. constructor; [exact Hs | constructor].
Qed.

Lemma calls_keep_submissions_graded_witness :
  Forall graded
    (submissions (data (calls (world [q1; q2] (quiz ["1"; "2"] 70 None))
       [PostSubmit (env true) "10" (request "  a@b.c " [("1", 1)]);
        DeleteChallenge (env true) "1";
        PostSubmit (env false) "10" (request "c@d.e" [("2", 0)])]))).
Proof. apply calls_keep_submissions_graded. constructor. Defined.

End Sequences.

(* ===================================================================== *)
(** ** Score and pass flag of a submission *)
(* ===================================================================== *)

Section SubmitOnBuiltStore.
Import JSONDatabase Server Sample.



End SubmitOnBuiltStore.

(* ===================================================================== *)
(** ** Stores built by the routes; memory and files *)
(* ===================================================================== *)

Section Built.
Import JSONDatabase Server Sample.

Lemma getAssessment_elem id d a :
  getAssessment id d = Some a -> a_id a = id /\ a ∈ assessments d.
Proof. apply (find_present a_id). Qed.

(** X8. On a store whose assessments all came from the create route (or
    are like those: passing score not 0, password not empty), the passed
    flag of a new submission is exactly [score >= passingScore], and the
    candidate view is granted exactly when the assessment has no password
    or the credential is its password; any other credential, a missing 
    one included, gets the 401. *)
Theorem normalised_store_pass_and_gate w e id body a cred :
  Forall normalised (assessments (data w)) ->
  getAssessment id (data w) = Some a ->
  (~ blank_email body ->
   exists s,
     submissions (data (snd (post_submit e id body w))) = (submissions (data w) ++ [s])%list /\
     s_passed s = (a_passingScore a <=? s_score s)) /\
  ((exists b, get_take id cred (data w) = Json 200 b) <->
   a_password a = None \/ a_password a = cred) /\
  (get_take id cred (data w) = Error 401 "Password required" true <->
   a_password a <> None /\ a_password a <> cred).
Proof.
  intros Hw Ha.
  destruct (getAssessment_elem _ _ _ Ha) as [_ Hin].
  rewrite Forall_forall in Hw. destruct (Hw a Hin) as (Hps & _ & Hpw).
  split; [|split].
  - intros Hb. exists (submitted e id body (data w) a).
    split; [now apply post_submit_stored|].
    unfold submitted, newSubmission, grade.
    cbn [s_passed s_score sd_passed sd_score]. unfold passed.
    rewrite or_number_passingScore. now rewrite decide_False.
  - unfold get_take. rewrite Ha. unfold password_mismatch, JS.truthy_string.
    destruct (a_password a) as [secret|]; [|split; eauto].
    destruct (String.eqb_spec secret EmptyString) as [->|Hne]; [congruence|]. simpl.
    destruct (decide (Some secret = cred)) as [Heq|Hneq].
    + rewrite bool_decide_eq_true_2 by assumption. simpl. split; eauto.
    + rewrite bool_decide_eq_false_2 by assumption. simpl. split.
      * intros [b Hb]. discriminate.
      * intros [H|H]; congruence.
  - unfold get_take. rewrite Ha. unfold password_mismatch, JS.truthy_string.
    destruct (a_password a) as [secret|].
    + destruct (String.eqb_spec secret EmptyString) as [->|Hne]; [congruence|]. simpl.
      destruct (decide (Some secret = cred)) as [Heq|Hneq].
      * rewrite bool_decide_eq_true_2 by assumption. simpl.
        split; [discriminate | intros [_ H]; congruence].
      * rewrite bool_decide_eq_false_2 by assumption. simpl.
        split; [intros _; split; congruence | reflexivity].
    + split; [discriminate | intros [H _]; congruence].
Qed.

(** An assessment created with passing score 0 and an empty password,
    then taken without credential and submitted with nothing correct. *)
Lemma normalised_store_pass_and_gate_witness :
  let w := calls empty_world
             [PostAssessment (env true)
                (mkAssessmentCreateRequest (Some "Quiz") None (Some ["1"]) None (Some 0)
                   (Some EmptyString))] in
  (exists s,
     submissions (data (snd (post_submit (env true) "1700000000000" (request "a@b.c" []) w))) = [s] /\
     s_score s = 0 /\ s_passed s = false) /\
  (exists b, get_take "1700000000000" None (data w) = Json 200 b).
Proof.
  intros w.
  pose proof (normalised_store_pass_and_gate w (env true) "1700000000000"
                (request "a@b.c" []) (newAssessment (env true)
                   (assessment_data (mkAssessmentCreateRequest (Some "Quiz") None (Some ["1"])
                                       None (Some 0) (Some EmptyString)))) None) as H.
  destruct H as (Hs & Hg & _).
  - apply (calls_normalised empty_world). constructor.
  - reflexivity.
  - split.
    + destruct Hs as (s & Hstored & Hp); [vm_compute; discriminate|].
      exists s. split; [exact Hstored|].
      vm_compute in Hstored. injection Hstored as <-. split; reflexivity.
    + apply Hg. now left.
Defined.

Lemma call_synced w c :
  synced w -> fs_ok (call_env c) = true -> synced (call w c).
Proof.
  unfold synced. intros Hs Hok.
  destruct c as [e body|e id body|e id|e body|e id body]; simpl in *.
  - rewrite post_challenge_eval, Hok. simpl. rewrite Hs. now destruct (data w).
  - destruct (list_find (fun q => q_id q = id) (questions (data w))) as [[i q]|] eqn:Hf.
    + rewrite (put_challenge_found _ _ _ _ _ _ Hf), Hok. simpl. rewrite Hs.
      now destruct (data w).
    + now rewrite (put_challenge_missing _ _ _ _ Hf).
  - destruct (list_find (fun q => q_id q = id) (questions (data w))) as [[i q]|] eqn:Hf.
    + rewrite (delete_challenge_found _ _ _ _ _ Hf), Hok. simpl. rewrite Hs.
      now destruct (data w).
    + now rewrite (delete_challenge_missing _ _ _ Hf).
  - rewrite post_assessment_eval, Hok. simpl. rewrite Hs. now destruct (data w).
  - destruct (getAssessment id (data w)) as [a|] eqn:Ha.
    + destruct (blank_email_dec body) as [Hb|Hb].
      * now rewrite (post_submit_blank e id body w a Ha Hb).
      * rewrite (post_submit_accepted e id body w a Ha Hb), Hok. simpl. rewrite Hs.
        now destruct (data w).
    + now rewrite (post_submit_missing _ _ _ _ Ha).
Qed.

(** X9. Every request that changes a collection writes that collection,
    and writes it as it then stands in memory: when each file was last
    written from the collection in memory (as on the empty store) and
    every write of a sequence of requests succeeds, the same holds after
    the sequence. *)
Theorem calls_keep_synced w cs :
  synced w ->
  Forall (fun c => fs_ok (call_env c) = true) cs ->
  synced (calls w cs).
Proof.
  intros Hs Hok.
  revert w Hs. induction Hok as [|c cs Hc Hok IH]; intros w Hs; [exact Hs|].
  unfold calls in *. simpl. apply IH. now apply call_synced.
Qed.

Lemma calls_keep_synced_witness :
  let w := calls empty_world
             [PostChallenge (env true) (mkQuestionCreateRequest None None None None None);
              PutChallenge (env true) "1700000000000"
                (mkQuestionCreateRequest (Some "Q") (Some ["a"; "b"]) (Some 1) None None);
              PostAssessment (env true)
                (mkAssessmentCreateRequest None None (Some ["1700000000000"]) None None None);
              PostSubmit (env true) "1700000000000" (request "a@b.c" [("1700000000000", 1)]);
              DeleteChallenge (env true) "1700000000000"] in
  files w = data w /\ length (submissions (files w)) = 1%nat /\ questions (files w) = [].
Proof.
  intros w. split; [|split; reflexivity].
  apply calls_keep_synced; [reflexivity|].
  repeat constructor.
Defined.

(** X10. A create-question request whose file write fails is answered
    500, yet the question has been pushed into memory: the list route
    returns it, the fetch of its id returns it when that id was not in
    use before, and a repetition of the request adds a second question
    of the same content. *)
Theorem failed_write_stays_in_memory e body w :
  fs_ok e = false ->
  let w' := snd (post_challenge e body w) in
  let q := newQuestion e (question_data body) in
  fst (post_challenge e body w) = Error 500 "Failed to create question" false /\
  get_challenges (data w') = Json 200 (questions (data w) ++ [q])%list /\
  (JS.toString (now e) ∉ q_id <$> questions (data w) ->
   get_challenge (JS.toString (now e)) (data w') = Json 200 q) /\
  (forall e2,
     get_challenges (data (snd (post_challenge e2 body w')))
     = Json 200 (questions (data w) ++ [q; newQuestion e2 (question_data body)])%list).
Proof.
  intros Hok w' q. subst w' q. rewrite post_challenge_eval, Hok. simpl.
  split; [reflexivity|]. split; [reflexivity|]. split.
  - intros Hfresh. unfold get_challenge, getQuestion; simpl.
    now rewrite (find_fresh_snoc (JS.toString (now e)) _ (newQuestion e (question_data body))).
  - intros e2. rewrite post_challenge_eval. unfold get_challenges, getQuestions.
    destruct (fs_ok e2); simpl; now rewrite <- app_assoc.
Qed.

Lemma failed_write_stays_in_memory_witness :
  let body := mkQuestionCreateRequest (Some "Q") (Some ["a"; "b"]) (Some 1) None None in
  let w' := snd (post_challenge (env false) body empty_world) in
  fst (post_challenge (env false) body empty_world)
    = Error 500 "Failed to create question" false /\
  (exists q, get_challenges (data w') = Json 200 [q] /\
             get_challenge "1700000000000" (data w') = Json 200 q).
Proof.
  intros body w'.
  destruct (failed_write_stays_in_memory (env false) body empty_world)
    as (Hr & Hl & Hg & _).
  - reflexivity.
  - split; [exact Hr|]. eexists. split; [exact Hl|].
    apply Hg. vm_compute. apply not_elem_of_nil.
Defined.

End Built.

(* ===================================================================== *)
(** ** Reviewing submissions *)
(* ===================================================================== *)

Section Review.
Import JSONDatabase Server Sample.

Lemma assessmentTitle_cases (assessment : option Assessment) :
  assessmentTitle assessment =
  match assessment with
  | Some a => if decide (a_title a = EmptyString) then "Unknown Assessment" else a_title a
  | None => "Unknown Assessment"
  end.
Proof.
  unfold assessmentTitle, JS.or_string, JS.truthy_string.
  destruct assessment as [a|]; simpl; [|reflexivity].
  destruct (String.eqb_spec (a_title a) EmptyString);
    destruct (decide (a_title a = EmptyString)); simpl; congruence.
Qed.

Lemma assessmentTitle_not_empty (assessment : option Assessment) :
  assessmentTitle assessment <> EmptyString.
Proof.
  rewrite assessmentTitle_cases. destruct assessment as [a|]; [|discriminate].
  destruct (decide (a_title a = EmptyString)); [discriminate | assumption].
Qed.

(** X11. The list of submissions has one entry for every stored
    submission, in the stored order. The title shown with an entry is
    never empty: it is the title of the assessment the submission refers
    to, and "Unknown Assessment" when that assessment is not stored or
    has an empty title (as every assessment created without a title
    has). *)
Theorem get_submissions_enriched d :
  exists l,
    get_submissions d = Json 200 l /\
    map es_submission l = submissions d /\
    Forall (fun x =>
              es_assessmentTitle x <> EmptyString /\
              es_assessmentTitle x =
                match getAssessment (s_assessmentId (es_submission x)) d with
                | Some a => if decide (a_title a = EmptyString)
                            then "Unknown Assessment" else a_title a
                | None => "Unknown Assessment"
                end) l.
Proof.
  eexists. split; [reflexivity|]. unfold getSubmissions. split.
  - induction (submissions d) as [|s l IH]; [reflexivity|]. simpl. now rewrite IH.
  - apply Forall_forall. intros x Hx.
    apply list_elem_of_In, in_map_iff in Hx as (s & <- & _). simpl.
    split; [apply assessmentTitle_not_empty | apply assessmentTitle_cases].
Qed.

Lemma filter_iff_elem {A} (P1 P2 : A -> Prop)
    `{!forall x, Decision (P1 x), !forall x, Decision (P2 x)} (l : list A) :
  (forall x, x ∈ l -> (P1 x <-> P2 x)) -> filter P1 l = filter P2 l.
Proof.
  induction l as [|a l IH]; intros Hiff; [reflexivity|].
  assert (Ha : P1 a <-> P2 a) by (apply Hiff, list_elem_of_here).
  assert (Hl : filter P1 l = filter P2 l)
    by (apply IH; intros x Hx; apply Hiff; now apply list_elem_of_further).
  rewrite !filter_cons, Hl.
  destruct (decide (P1 a)), (decide (P2 a)); tauto.
Qed.

(** The entry the review holds for a question. *)
Lemma detailed_lookup d s l m0 qid :
  fold_left (add_detail d s) l m0 !! qid =
  match getQuestion qid d with
  | Some q =>
      if decide (qid ∈ l)
      then Some (mkDetailedAnswer (q_question q) (q_options q) (q_correctAnswer q)
                   (s_answers s !! qid)
                   (JS.strict_eq (s_answers s !! qid) (q_correctAnswer q)))
      else m0 !! qid
  | None => m0 !! qid
  end.
Proof.
  revert m0. induction l as [|i l IH]; intros m0; cbn [fold_left].
  - destruct (getQuestion qid d); [|reflexivity].
    now rewrite decide_False by apply not_elem_of_nil.
  - rewrite IH. unfold add_detail.
    destruct (decide (i = qid)) as [->|Hne].
    + destruct (getQuestion qid d) as [q|] eqn:Hq; [|reflexivity].
      rewrite (decide_True (P := qid ∈ qid :: l)) by apply list_elem_of_here.
      rewrite lookup_insert_eq. now destruct (decide (qid ∈ l)).
    + destruct (getQuestion qid d) as [q|] eqn:Hq.
      * destruct (decide (qid ∈ l)) as [Hin|Hnin].
        -- now rewrite decide_True by now apply list_elem_of_further.
        -- rewrite decide_False by (rewrite not_elem_of_cons; split; congruence).
           destruct (getQuestion i d); [now rewrite lookup_insert_ne | reflexivity].
      * destruct (getQuestion i d); [now rewrite lookup_insert_ne | reflexivity].
Qed.

(** X12. The review of a submission agrees with the scoring loop as long
    as the questions are those of submission time: a listed id has an
    entry exactly when it resolves, the entry is marked correct exactly
    when the loop counts the id, and the number of listed ids (counted
    with repetition) whose entry is marked correct is the submission's
    number of correct answers as the loop computes it. *)
Theorem review_matches_scoring id d s a :
  getSubmission id d = Some s ->
  getAssessment (s_assessmentId s) d = Some a ->
  exists detail,
    get_submission id d = Json 200 detail /\
    sdt_submission detail = s /\
    (forall qid, qid ∈ a_selectedChallenges a ->
       (is_Some (sdt_detailedAnswers detail !! qid) <-> is_Some (getQuestion qid d)) /\
       (da_isCorrect <$> sdt_detailedAnswers detail !! qid = Some true <->
        answered_correctly d (s_answers s) qid = true)) /\
    (forall qid, qid ∉ a_selectedChallenges a -> sdt_detailedAnswers detail !! qid = None) /\
    correctCount d (s_answers s) (a_selectedChallenges a) =
      length (filter (fun qid => da_isCorrect <$> sdt_detailedAnswers detail !! qid = Some true)
                     (a_selectedChallenges a)).
Proof.
  intros Hs Ha. eexists. unfold get_submission. rewrite Hs, Ha.
  split; [reflexivity|]. split; [reflexivity|]. simpl.
  assert (Hmark : forall qid, qid ∈ a_selectedChallenges a ->
            (da_isCorrect <$>
               fold_left (add_detail d s) (a_selectedChallenges a) ∅ !! qid = Some true <->
             answered_correctly d (s_answers s) qid = true)).
  { intros qid Hin. rewrite detailed_lookup. unfold answered_correctly.
    destruct (getQuestion qid d) as [q|].
    - rewrite decide_True by assumption. simpl. split; congruence.
    - rewrite lookup_empty. simpl. split; discriminate. }
  split; [|split].
  - intros qid Hin. split; [|now apply Hmark].
    rewrite detailed_lookup. destruct (getQuestion qid d) as [q|].
    + rewrite decide_True by assumption. split; eauto.
    + rewrite lookup_empty. split; intros [x Hx]; discriminate.
  - intros qid Hnin. rewrite detailed_lookup.
    destruct (getQuestion qid d); [now rewrite decide_False | reflexivity].
  - rewrite correctCount_filter. f_equal.
    apply filter_iff_elem. intros qid Hin.
    symmetry. now apply Hmark.
Qed.

(** Two questions, one answered correctly, reviewed right after the
    submission. *)
Lemma review_matches_scoring_witness :
  let a := quiz ["1"; "2"] 70 None in
  let w' := snd (post_submit (env true) "10" (request "a@b.c" [("1", 1); ("2", 1)])
                   (world [q1; q2] a)) in
  exists detail,
    get_submission "1700000000000" (data w') = Json 200 detail /\
    s_correctCount (sdt_submission detail) = 1%nat /\
    length (filter (fun qid => da_isCorrect <$> sdt_detailedAnswers detail !! qid = Some true)
                   (a_selectedChallenges a)) = 1%nat.
Proof.
  intros a w'.
  destruct (review_matches_scoring "1700000000000" (data w')
              (submitted (env true) "10" (request "a@b.c" [("1", 1); ("2", 1)])
                 (data (world [q1; q2] a)) a) a eq_refl eq_refl)
    as (detail & Hget & Hsub & _ & _ & Hcount).
  exists detail. split; [exact Hget|]. split.
  - rewrite Hsub. reflexivity.
  - rewrite <- Hcount. reflexivity.
Defined.

Lemma getSubmissionsByAssessment_snoc id' l s d :
  submissions d = (l ++ [s])%list ->
  getSubmissionsByAssessment id' d =
  (filter (fun x => s_assessmentId x = id') l ++
   (if decide (s_assessmentId s = id') then [s] else []))%list.
Proof.
  intros Hd. unfold getSubmissionsByAssessment. rewrite Hd, filter_app.
  f_equal.
Qed.

(** X13. The results of an assessment: 404 when the assessment is not
    stored, whatever submissions refer to the id; otherwise the stored
    assessment (password included) with the submissions that carry its
    id, in stored order, their number, and a pass rate that is the score
    formula applied to the number of passed submissions; with no
    submission the average and the pass rate are 0. *)
Theorem get_results_stats id d :
  (getAssessment id d = None ->
   get_results id d = Error 404 "Assessment not found" false) /\
  (forall a, getAssessment id d = Some a ->
     exists st,
       get_results id d = Json 200 (a, st) /\
       rs_submissions st = filter (fun s => s_assessmentId s = id) (submissions d) /\
       rs_totalSubmissions st = length (rs_submissions st) /\
       rs_passRate st =
         score (length (filter (fun s => s_passed s = true) (rs_submissions st)))
               (rs_totalSubmissions st) /\
       (rs_submissions st = [] -> rs_averageScore st = 0 /\ rs_passRate st = 0)).
Proof.
  unfold get_results. split.
  - now intros ->.
  - intros a ->. eexists. split; [reflexivity|]. simpl.
    split; [reflexivity|]. split; [reflexivity|]. split; [reflexivity|].
    intros Hnil. unfold averageScore, passRate. now rewrite Hnil.
Qed.

(** X14. An accepted submission shows in the results of its assessment
    at once, as the last of its submissions and one more in the count,
    also when the file could not be written; the results of every other
    assessment list the submissions they listed before. *)
Theorem submit_shows_in_results e id body w a :
  getAssessment id (data w) = Some a ->
  ~ blank_email body ->
  let w' := snd (post_submit e id body w) in
  let s := submitted e id body (data w) a in
  (exists st st',
     get_results id (data w) = Json 200 (a, st) /\
     get_results id (data w') = Json 200 (a, st') /\
     rs_submissions st' = (rs_submissions st ++ [s])%list /\
     rs_totalSubmissions st' = S (rs_totalSubmissions st)) /\
  (forall id', id' <> id ->
     getSubmissionsByAssessment id' (data w') = getSubmissionsByAssessment id' (data w)).
Proof.
  intros Ha Hb w' s.
  assert (Hsub : submissions (data w') = (submissions (data w) ++ [s])%list)
    by now apply post_submit_stored.
  assert (Hass : assessments (data w') = assessments (data w)).
  { subst w'. rewrite (post_submit_accepted _ _ _ _ _ Ha Hb). simpl.
    now destruct (fs_ok e). }
  assert (Ha' : getAssessment id (data w') = Some a).
  { unfold getAssessment. now rewrite Hass. }
  split.
  - unfold get_results. rewrite Ha, Ha'. eexists _, _.
    split; [reflexivity|]. split; [reflexivity|]. simpl.
    rewrite (getSubmissionsByAssessment_snoc id _ s _ Hsub).
    assert (Hid : s_assessmentId s = id) by reflexivity.
    rewrite decide_True by exact Hid.
    split; [reflexivity|]. rewrite length_app. simpl.
    unfold getSubmissionsByAssessment. lia.
  - intros id' Hne.
    rewrite (getSubmissionsByAssessment_snoc id' _ s _ Hsub).
    rewrite decide_False by (simpl; congruence).
    now rewrite app_nil_r.
Qed.

Lemma submit_shows_in_results_witness :
  let a := quiz ["1"; "2"] 70 None in
  let w' := snd (post_submit (env false) "10" (request "a@b.c" [("1", 1)]) (world [q1; q2] a)) in
  exists st,
    get_results "10" (data w') = Json 200 (a, st) /\ rs_totalSubmissions st = 1%nat.
Proof.
  intros a w'.
  destruct (submit_shows_in_results (env false) "10" (request "a@b.c" [("1", 1)])
              (world [q1; q2] a) a) as [(st & st' & H0 & H1 & _ & Hn) _].
  - reflexivity.
  - vm_compute. discriminate.
  - exists st'. split; [exact H1|]. rewrite Hn.
    injection H0 as <-. reflexivity.
Defined.

End Review.

(* ===================================================================== *)
(** ** The score for small totals *)
(* ===================================================================== *)

Section ScoreTable.
Import JSONDatabase Server Sample.

Lemma score_table_120 : score_table 120 = true.
Proof. vm_compute. reflexivity. Qed.

Lemma score_table_spec n :
  score_table n = true ->
  forall c t, (1 <= t <= n)%nat -> (c <= t)%nat -> score_checks c t = true.
Proof.
  unfold score_table. rewrite forallb_forall. intros H c t Ht Hc.
  assert (Hin : In t (seq 1 n)) by (apply in_seq; lia).
  specialize (H t Hin). rewrite forallb_forall in H.
  apply H. apply in_seq. lia.
Qed.

Lemma score_checks_upto c t :
  (1 <= t <= 120)%nat -> (c <= t)%nat -> score_checks c t = true.
Proof. apply (score_table_spec 120 score_table_120). Qed.

(** X15. For every assessment of 1 to 120 questions and every number of
    correct answers, the score is an integer from 0 to 100, it is 0 when
    nothing is correct and 100 when everything is, and it is at most one
    away from the exactly rounded percentage; up to 39 questions it is
    the exactly rounded percentage. *)
Theorem score_small_totals c t :
  (1 <= t <= 120)%nat -> (c <= t)%nat ->
  0 <= score c t <= 100 /\
  Z.abs (score c t - exact_score c t) <= 1 /\
  ((t <= 39)%nat -> score c t = exact_score c t) /\
  score 0 t = 0 /\
  score t t = 100.
Proof.
  intros Ht Hc.
  pose proof (score_checks_upto c t Ht Hc) as H.
  pose proof (score_checks_upto 0 t Ht ltac:(lia)) as H0.
  pose proof (score_checks_upto t t Ht ltac:(lia)) as H1.
  unfold score_checks in *.
  repeat (apply andb_true_iff in H as [H ?]).
  repeat (apply andb_true_iff in H0 as [H0 ?]).
  repeat (apply andb_true_iff in H1 as [H1 ?]).
  repeat match goal with
         | Hx : (_ <=? _) = true |- _ => apply Z.leb_le in Hx
         end.
  split; [lia|]. split; [lia|]. split; [|split].
  - intros Hsmall.
    match goal with
    | Hx : ((39 <? t)%nat || (score c t =? _)) = true |- _ =>
        apply orb_true_iff in Hx as [Hx|Hx];
        [apply Nat.ltb_lt in Hx; lia | now apply Z.eqb_eq in Hx]
    end.
  - match goal with
    | Hx : (negb (0 =? 0)%nat || (score 0 t =? 0)) = true |- _ =>
        simpl in Hx; now apply Z.eqb_eq in Hx
    end.
  - match goal with
    | Hx : (negb (t =? t)%nat || (score t t =? 100)) = true |- _ =>
        rewrite Nat.eqb_refl in Hx; simpl in Hx; now apply Z.eqb_eq in Hx
    end.
Qed.

Lemma score_small_totals_witness :
  score 23 40 = 57 /\ exact_score 23 40 = 58 /\ score 40 40 = 100.
Proof.
  pose proof (score_small_totals 23 40 ltac:(lia) ltac:(lia)) as (_ & _ & _ & _ & H).
  split; [vm_compute; reflexivity|]. split; [vm_compute; reflexivity | exact H].
Defined.

End ScoreTable.

(* ===================================================================== *)
(** ** Store utilities: restore, clear, and deleting an assessment *)
(* ===================================================================== *)

Section Utilities.
Import JSONDatabase Server Sample.

Lemma restore_eval e1 e2 e3 d w :
  restore e1 e2 e3 d w =
    if fs_ok e1 then
      if fs_ok e2 then
        if fs_ok e3 then (Returned tt, mkWorld d d)
        else (Thrown "Failed to save submissions",
              mkWorld d (mkDatabase (questions d) (assessments d) (submissions (files w))))
      else (Thrown "Failed to save assessments",
            mkWorld d (mkDatabase (questions d) (assessments (files w)) (submissions (files w))))
    else (Thrown "Failed to save questions", mkWorld d (files w)).
Proof.
  unfold restore, saveAll, mbind, M_bind, modify_data, saveCollection; simpl.
  destruct (fs_ok e1), (fs_ok e2), (fs_ok e3); simpl; try reflexivity; now destruct d.
Qed.

(** X16. [restore] replaces the collections in memory before it writes,
    so that memory holds the restored data even when it throws; it
    returns exactly when the three writes succeed, each file then being
    written from the restored data, and otherwise throws the error of
    the first write that fails. [clear] is [restore] of three empty
    collections, after which the statistics are all 0. *)
Theorem restore_replaces_memory e1 e2 e3 d w :
  data (snd (restore e1 e2 e3 d w)) = d /\
  (fst (restore e1 e2 e3 d w) = Returned tt <->
   fs_ok e1 = true /\ fs_ok e2 = true /\ fs_ok e3 = true) /\
  (fs_ok e1 = true -> fs_ok e2 = true -> fs_ok e3 = true ->
   restore e1 e2 e3 d w = (Returned tt, mkWorld d d)) /\
  (fs_ok e1 = false ->
   fst (restore e1 e2 e3 d w) = Thrown "Failed to save questions") /\
  (fs_ok e1 = true -> fs_ok e2 = false ->
   fst (restore e1 e2 e3 d w) = Thrown "Failed to save assessments") /\
  (fs_ok e1 = true -> fs_ok e2 = true -> fs_ok e3 = false ->
   fst (restore e1 e2 e3 d w) = Thrown "Failed to save submissions") /\
  clear e1 e2 e3 w = restore e1 e2 e3 (mkDatabase [] [] []) w /\
  get_stats (data (snd (clear e1 e2 e3 w))) = Json 200 (mkStats 0 0 0 0 0).
Proof.
  assert (Hdata : forall d' w', data (snd (restore e1 e2 e3 d' w')) = d').
  { intros d' w'. rewrite restore_eval.
    now destruct (fs_ok e1), (fs_ok e2), (fs_ok e3). }
  split; [apply Hdata|].
  split.
  { rewrite restore_eval.
    destruct (fs_ok e1), (fs_ok e2), (fs_ok e3); simpl;
      (split; [try discriminate; tauto | intros (H1 & H2 & H3); try discriminate; reflexivity]). }
  split; [rewrite restore_eval; now intros -> -> ->|].
  split; [rewrite restore_eval; now intros ->|].
  split; [rewrite restore_eval; now intros -> ->|].
  split; [rewrite restore_eval; now intros -> -> ->|].
  split; [reflexivity|].
  change (clear e1 e2 e3 w) with (restore e1 e2 e3 (mkDatabase [] [] []) w).
  now rewrite Hdata.
Qed.

Lemma restore_replaces_memory_witness :
  let d := db [q1] (quiz ["1"] 70 None) in
  restore (env true) (env true) (env true) d empty_world = (Returned tt, mkWorld d d) /\
  fst (restore (env true) (env false) (env true) d empty_world)
    = Thrown "Failed to save assessments" /\
  data (snd (restore (env true) (env false) (env true) d empty_world)) = d.
Proof.
  intros d.
  pose proof (restore_replaces_memory (env true) (env true) (env true) d empty_world)
    as (_ & _ & Hok & _).
  pose proof (restore_replaces_memory (env true) (env false) (env true) d empty_world)
    as (Hd & _ & _ & _ & Hfail & _).
  split; [apply Hok; reflexivity|]. split; [apply Hfail; reflexivity | exact Hd].
Defined.

Lemma deleteAssessment_found e id w i a :
  list_find (fun a => a_id a = id) (assessments (data w)) = Some (i, a) ->
  deleteAssessment e id w =
    let d' := set_assessments (fun l => delete i l) (data w) in
    if fs_ok e
    then (Returned true, mkWorld d' (write_file Assessments d' (files w)))
    else (Thrown "Failed to save assessments", mkWorld d' (files w)).
Proof.
  intros Hf. unfold deleteAssessment. rewrite Hf, run_store_update. reflexivity.
Qed.

(** X17. [deleteAssessment] removes the assessment and nothing else:
    when the stored assessment ids are distinct, the deleted id gets 404
    from the candidate view and from the results afterwards, while the
    submissions that refer to it stay stored and are listed under
    "Unknown Assessment"; a call for an id that is not stored returns
    false and changes nothing. *)
Theorem deleteAssessment_orphans e id w a :
  NoDup (a_id <$> assessments (data w)) ->
  getAssessment id (data w) = Some a ->
  let d' := data (snd (deleteAssessment e id w)) in
  (fs_ok e = true -> fst (deleteAssessment e id w) = Returned true) /\
  submissions d' = submissions (data w) /\
  questions d' = questions (data w) /\
  (forall cred, get_take id cred d' = Error 404 "Assessment not found" false) /\
  get_results id d' = Error 404 "Assessment not found" false /\
  (forall s, s_assessmentId s = id ->
     assessmentTitle (getAssessment (s_assessmentId s) d') = "Unknown Assessment") /\
  (forall id', getAssessment id' (data w) = None ->
     deleteAssessment e id' w = (Returned false, w)).
Proof.
  intros Hnd Ha d'.
  assert (Hidx : exists i, list_find (fun a => a_id a = id) (assessments (data w)) = Some (i, a)).
  { unfold getAssessment in Ha. rewrite (find_list_find a_id) in Ha.
    destruct (list_find _ _) as [[i x]|]; [|discriminate].
    injection Ha as <-. eauto. }
  destruct Hidx as [i Hf]. subst d'.
  rewrite (deleteAssessment_found _ _ _ _ _ Hf).
  apply list_find_Some in Hf as (Hi & Hid & _).
  assert (Hgone : getAssessment id (set_assessments (fun l => delete i l) (data w)) = None).
  { unfold getAssessment; simpl. rewrite <- Hid. now apply (find_delete_unique a_id). }
  assert (Hmiss : forall id', getAssessment id' (data w) = None ->
            deleteAssessment e id' w = (Returned false, w)).
  { intros id' Hn. unfold deleteAssessment, getAssessment in *.
    rewrite (find_list_find a_id) in Hn.
    now destruct (list_find _ _) as [[j x]|]. }
  destruct (fs_ok e); simpl;
    (split; [try reflexivity; discriminate|]);
    (split; [reflexivity|]); (split; [reflexivity|]);
    (split; [intros cred; unfold get_take; now rewrite Hgone|]);
    (split; [unfold get_results; now rewrite Hgone|]);
    (split; [intros s ->; now rewrite Hgone | exact Hmiss]).
Qed.

Lemma deleteAssessment_orphans_witness :
  let a := quiz ["1"] 70 None in
  let w := snd (post_submit (env true) "10" (request "a@b.c" [("1", 1)]) (world [q1] a)) in
  let d' := data (snd (deleteAssessment (env true) "10" w)) in
  length (submissions d') = 1%nat /\
  get_results "10" d' = Error 404 "Assessment not found" false.
Proof.
  intros a w d'.
  destruct (deleteAssessment_orphans (env true) "10" w a) as (_ & Hs & _ & _ & Hr & _).
  - apply (bool_decide_unpack _). vm_compute. exact I.
  - reflexivity.
  - split; [|exact Hr]. fold d' in Hs. rewrite Hs. reflexivity.
Defined.

End Utilities.

(* ===================================================================== *)
(** ** The question form *)
(* ===================================================================== *)

Section QuestionForm.
Import JSONDatabase Server Client Sample.

Lemma click_form_ok fd c :
  form_ok fd -> on_display fd c -> form_ok (click fd c).
Proof.
  unfold form_ok. intros [Hlen Hca] Hd.
  destruct c as [|index|index]; simpl in *.
  - unfold addOption. destruct (Nat.ltb_spec (length (fd_options fd)) 6); simpl.
    + rewrite length_app. simpl. lia.
    + lia.
  - unfold removeOption. destruct (Nat.ltb_spec 2 (length (fd_options fd))); simpl.
    + rewrite length_delete by now apply lookup_lt_is_Some.
      destruct (Z.leb_spec (Z.of_nat index) (fd_correctAnswer fd)); lia.
    + lia.
  - lia.
Qed.

Lemma edits_form_ok fd0 fd :
  edits fd0 fd -> form_ok fd0 -> form_ok fd.
Proof.
  intros H H0. induction H as [fd0|fd0 fd' c _ IH Hd]; [exact H0|].
  apply click_form_ok; [now apply IH | exact Hd].
Qed.

(** X18. The option editor of the question form keeps between 2 and 6
    options and a correct answer that is the index of one of them,
    through any sequence of adding an option, removing a displayed
    option and marking a displayed option as correct, starting from the
    empty form. *)
Theorem option_editor_keeps_form_ok fd :
  edits initialForm fd -> form_ok fd.
Proof.
  intros H. apply (edits_form_ok initialForm fd H).
  unfold form_ok; simpl. lia.
Qed.

Lemma option_editor_keeps_form_ok_witness :
  form_ok (click (click (click (click initialForm (ClickCorrect 3)) (ClickRemove 1))
                    (ClickRemove 2)) (ClickRemove 0)).
Proof.
  apply option_editor_keeps_form_ok.
  repeat (apply edits_step; [|simpl; lia]). apply edits_refl.
Defined.

(** X19. Removing an option other than the one marked correct leaves the
    same option text marked: the index moves down with it when the
    removed option came before. Removing the marked option itself moves
    the mark to the option before it, or to the new first option. *)
Theorem removeOption_keeps_marked index fd :
  form_ok fd ->
  (2 < length (fd_options fd))%nat ->
  (index < length (fd_options fd))%nat ->
  let fd' := removeOption index fd in
  (Z.of_nat index <> fd_correctAnswer fd ->
   fd_options fd' !! Z.to_nat (fd_correctAnswer fd') =
   fd_options fd !! Z.to_nat (fd_correctAnswer fd)) /\
  (Z.of_nat index = fd_correctAnswer fd ->
   fd_correctAnswer fd' = Z.max 0 (fd_correctAnswer fd - 1)).
Proof.
  intros [_ Hca] Hlen Hidx fd'. subst fd'. unfold removeOption.
  destruct (Nat.ltb_spec 2 (length (fd_options fd))); [|lia]. simpl.
  split.
  - intros Hne. destruct (Z.leb_spec (Z.of_nat index) (fd_correctAnswer fd)).
    + rewrite list_lookup_delete_ge by lia. f_equal. lia.
    + rewrite list_lookup_delete_lt by lia. reflexivity.
  - intros Heq. destruct (Z.leb_spec (Z.of_nat index) (fd_correctAnswer fd)); lia.
Qed.

Lemma removeOption_keeps_marked_witness :
  let fd := mkFormData "Q" ["a"; "b"; "c"; "d"] 2 medium "General" in
  fd_options (removeOption 0 fd) !! Z.to_nat (fd_correctAnswer (removeOption 0 fd)) = Some "c" /\
  fd_correctAnswer (removeOption 2 fd) = 1.
Proof.
  intros fd.
  assert (Hok : form_ok fd) by (unfold form_ok; simpl; lia).
  destruct (removeOption_keeps_marked 0 fd Hok ltac:(simpl; lia) ltac:(simpl; lia)) as [H0 _].
  destruct (removeOption_keeps_marked 2 fd Hok ltac:(simpl; lia) ltac:(simpl; lia)) as [_ H2].
  split; [rewrite H0 by (simpl; lia) | rewrite H2 by reflexivity]; reflexivity.
Defined.

Lemma validateForm_spec fd :
  validateForm fd = true <->
  blank (fd_question fd) = false /\
  existsb blank (fd_options fd) = false /\
  (2 <= length (List.filter (fun o => negb (blank o)) (fd_options fd)))%nat /\
  blank (fd_category fd) = false.
Proof.
  unfold validateForm, formErrors. rewrite Nat.eqb_eq.
  destruct (blank (fd_question fd)), (existsb blank (fd_options fd)),
    (Nat.ltb_spec (length (List.filter (fun o => negb (blank o)) (fd_options fd))) 2),
    (blank (fd_category fd)); simpl; split; try discriminate; try lia;
    try (intros (? & ? & ? & ?); try discriminate; lia);
    intros _; repeat split; lia.
Qed.

(** X20. What the question form sends when it passes its validation and
    its option editor state is sound: a create is stored with the prompt,
    the options, the correct answer, the difficulty and the category of
    the form, the correct answer being the index of one of the options
    and no option being blank; an update of a stored id replaces these
    five fields, keeps the id and the creation time, and leaves no field
    undefined. A form that fails the validation sends nothing. *)
Theorem form_submits_valid_question e fd w :
  form_ok fd ->
  (validateForm fd = false -> forall editing, handleSubmit e editing fd w = None) /\
  (validateForm fd = true ->
   (exists r,
      handleSubmit e None fd w = Some r /\
      let q := mkQuestion (JS.toString (now e)) (Some (fd_question fd)) (Some (fd_options fd))
                 (Some (fd_correctAnswer fd)) (Some (fd_difficulty fd))
                 (Some (fd_category fd)) (iso e) None in
      questions (data (snd r)) = (questions (data w) ++ [q])%list /\
      valid_question q /\
      Forall (fun o => JS.trim o <> EmptyString) (fd_options fd)) /\
   (forall id old, getQuestion id (data w) = Some old ->
      exists r,
        handleSubmit e (Some id) fd w = Some r /\
        let q := mkQuestion id (Some (fd_question fd)) (Some (fd_options fd))
                   (Some (fd_correctAnswer fd)) (Some (fd_difficulty fd))
                   (Some (fd_category fd)) (q_createdAt old) (Some (iso e)) in
        getQuestion id (data (snd r)) = Some q /\ valid_question q)).
Proof.
  intros [Hlen Hca]. unfold handleSubmit. split; [now intros ->|].
  intros Hv. rewrite Hv. apply validateForm_spec in Hv as (Hq & Hopts & _ & Hcat).
  split.
  - eexists. split; [reflexivity|]. cbn zeta.
    rewrite post_challenge_questions.
    assert (Hqd : newQuestion e (question_data (form_body fd)) =
                  mkQuestion (JS.toString (now e)) (Some (fd_question fd)) (Some (fd_options fd))
                    (Some (fd_correctAnswer fd)) (Some (fd_difficulty fd))
                    (Some (fd_category fd)) (iso e) None).
    { unfold newQuestion, question_data, form_body; simpl. f_equal.
      - unfold blank in Hq. apply negb_false_iff in Hq.
        unfold JS.or_string. destruct (JS.truthy_string (fd_question fd)) eqn:Ht;
          [reflexivity|].
        apply truthy_string_false in Ht. now rewrite Ht.
      - unfold JS.or_number, JS.truthy_number.
        destruct (Z.eqb_spec (fd_correctAnswer fd) 0) as [->|]; reflexivity.
      - unfold JS.or_string. destruct (JS.truthy_string (fd_category fd)) eqn:Ht;
          [reflexivity|].
        apply truthy_string_false in Ht. rewrite Ht in Hcat. discriminate. }
    rewrite Hqd. split; [reflexivity|]. split; [exact Hca|].
    apply Forall_forall. intros o Ho Hblank.
    assert (Hex : existsb blank (fd_options fd) = true); [|congruence].
    apply existsb_exists. exists o. split; [now apply list_elem_of_In|].
    unfold blank. now rewrite Hblank.
  - intros id old Hold. eexists. split; [reflexivity|]. cbn zeta.
    destruct (getQuestion_index _ _ _ Hold) as [i Hf].
    rewrite (put_challenge_found _ _ _ _ _ _ Hf).
    pose proof Hf as Hf'. apply list_find_Some in Hf' as (_ & Hid & _).
    rewrite merge_question_updates_of. unfold form_body; simpl. rewrite Hid.
    split; [|exact Hca].
    assert (Hget : forall d', questions d' =
                     <[i := mkQuestion id (Some (fd_question fd)) (Some (fd_options fd))
                              (Some (fd_correctAnswer fd)) (Some (fd_difficulty fd))
                              (Some (fd_category fd)) (q_createdAt old) (Some (iso e))]>
                       (questions (data w)) ->
                   getQuestion id d' =
                     Some (mkQuestion id (Some (fd_question fd)) (Some (fd_options fd))
                             (Some (fd_correctAnswer fd)) (Some (fd_difficulty fd))
                             (Some (fd_category fd)) (q_createdAt old) (Some (iso e)))).
    { intros d' Hd'. unfold getQuestion. rewrite Hd'.
      now apply (find_insert_found q_id id _ i old). }
    destruct (fs_ok e); apply Hget; reflexivity.
Qed.

Lemma form_submits_valid_question_witness :
  let fd := mkFormData "What is 2 + 2?" ["3"; "4"] 1 easy "Math" in
  exists r,
    handleSubmit (env true) None fd empty_world = Some r /\
    Forall valid_question (questions (data (snd r))).
Proof.
  intros fd.
  assert (Hok : form_ok fd) by (unfold form_ok; simpl; lia).
  destruct (form_submits_valid_question (env true) fd empty_world Hok) as [_ H].
  destruct (H eq_refl) as [(r & Hr & Hqs & Hv & _) _].
  exists r. split; [exact Hr|]. cbn zeta in Hqs. rewrite Hqs.
  constructor; [exact Hv | constructor].
Defined.

End QuestionForm.

(* ===================================================================== *)
(** ** The assessment form and the candidate page *)
(* ===================================================================== *)

Section Pages.
Import JSONDatabase Server Client Sample.

Lemma filter_not_absent (q : string) (l : list string) :
  q ∉ l -> filter (fun id => id <> q) l = l.
Proof.
  induction l as [|x l IH]; [reflexivity|].
  rewrite not_elem_of_cons. intros [Hx Hl].
  rewrite filter_cons, decide_True by congruence. now rewrite IH.
Qed.

(** X21. Ticking a question in the assessment form selects it when it
    was not selected (at the end of the selection) and removes it when it
    was; the other questions stay selected or not, in their order; a
    selection without repetition stays without repetition, and ticking
    twice a question that was not selected restores the selection. *)
Theorem handleQuestionToggle_flips q l :
  NoDup l ->
  let l' := handleQuestionToggle q l in
  NoDup l' /\
  (q ∈ l' <-> q ∉ l) /\
  (forall q', q' <> q -> (q' ∈ l' <-> q' ∈ l)) /\
  filter (fun id => id <> q) l' = filter (fun id => id <> q) l /\
  (q ∉ l -> handleQuestionToggle q l' = l).
Proof.
  intros Hnd l'. subst l'. unfold handleQuestionToggle.
  destruct (decide (q ∈ l)) as [Hin|Hnin].
  - rewrite bool_decide_eq_true_2 by assumption.
    split; [now apply NoDup_filter|].
    split; [rewrite list_elem_of_filter; tauto|].
    split; [intros q' Hne; rewrite list_elem_of_filter; tauto|].
    split; [|contradiction].
    rewrite list_filter_filter. apply list_filter_iff. tauto.
  - rewrite bool_decide_eq_false_2 by assumption.
    split.
    { apply NoDup_app. split; [assumption|]. split; [|apply NoDup_singleton].
      intros x Hx Hx'. apply list_elem_of_singleton in Hx'. now subst. }
    split.
    { rewrite elem_of_app, list_elem_of_singleton. tauto. }
    split.
    { intros q' Hne. rewrite elem_of_app, list_elem_of_singleton. tauto. }
    split.
    { rewrite filter_app, filter_cons, decide_False by tauto.
      now rewrite filter_nil, app_nil_r. }
    intros _. rewrite bool_decide_eq_true_2
      by (rewrite elem_of_app, list_elem_of_singleton; tauto).
    rewrite filter_app, filter_cons, decide_False by tauto.
    rewrite filter_nil, app_nil_r. now apply filter_not_absent.
Qed.

Lemma handleQuestionToggle_flips_witness :
  handleQuestionToggle "2" ["1"; "2"; "3"] = ["1"; "3"] /\
  NoDup (handleQuestionToggle "2" ["1"; "2"; "3"]) /\
  handleQuestionToggle "4" (handleQuestionToggle "4" ["1"; "3"]) = ["1"; "3"].
Proof.
  split; [reflexivity|]. split.
  - apply (handleQuestionToggle_flips "2" ["1"; "2"; "3"]).
    apply (bool_decide_unpack _). vm_compute. exact I.
  - apply (handleQuestionToggle_flips "4" ["1"; "3"]).
    + apply (bool_decide_unpack _). vm_compute. exact I.
    + apply (bool_decide_unpack _). vm_compute. exact I.
Defined.

Lemma toggles_NoDup (ticks : list string) (l : list string) :
  NoDup l ->
  NoDup (fold_left (fun sel q => handleQuestionToggle q sel) ticks l).
Proof.
  revert l. induction ticks as [|q ticks IH]; intros l Hl; [exact Hl|].
  simpl. apply IH. unfold handleQuestionToggle.
  destruct (decide (q ∈ l)) as [Hin|Hnin].
  - rewrite bool_decide_eq_true_2 by assumption. now apply NoDup_filter.
  - rewrite bool_decide_eq_false_2 by assumption.
    apply NoDup_app. split; [assumption|]. split; [|apply NoDup_singleton].
    intros x Hx Hx'. apply list_elem_of_singleton in Hx'. now subst.
Qed.

(** X22. An assessment created from the assessment form, whatever
    questions were ticked and in whatever order, is stored with a
    selection in which no id occurs twice. The stored password is the
    typed one, as typed (not trimmed), and none when the field was left
    empty. *)
Theorem form_assessment_has_distinct_ids e ticks title description timeLimit passingScore password w :
  let af := mkAssessmentForm title description
              (fold_left (fun sel q => handleQuestionToggle q sel) ticks [])
              timeLimit passingScore password in
  exists a,
    assessments (data (snd (createFromForm e af w))) = (assessments (data w) ++ [a])%list /\
    a_selectedChallenges a = af_selectedChallenges af /\
    NoDup (a_selectedChallenges a) /\
    a_password a = (if decide (password = EmptyString) then None else Some password).
Proof.
  intros af. unfold createFromForm. rewrite post_assessment_eval.
  eexists. split; [now destruct (fs_ok e)|]. simpl.
  assert (Hnd : NoDup (fold_left (fun sel q => handleQuestionToggle q sel) ticks []))
    by (apply toggles_NoDup; constructor).
  split; [reflexivity|]. split; [exact Hnd|].
  unfold JS.or_undefined, JS.truthy_string.
  destruct (decide (password = EmptyString)) as [->|Hne]; [reflexivity|].
  apply String.eqb_neq in Hne. now rewrite Hne; simpl; rewrite Hne.
Qed.

End Pages.

Section Candidate.
Import JSONDatabase Server Client Sample.

Lemma get_take_secret id d a secret cred :
  getAssessment id d = Some a ->
  a_password a = Some secret -> secret <> EmptyString ->
  ((exists b, get_take id cred d = Json 200 b) <-> cred = Some secret).
Proof.
  intros Ha Hp Hne. unfold get_take, password_mismatch, JS.truthy_string.
  rewrite Ha, Hp. apply String.eqb_neq in Hne. rewrite Hne. simpl.
  destruct (decide (Some secret = cred)) as [Heq|Hneq].
  - rewrite bool_decide_eq_true_2 by assumption. simpl. split; eauto.
  - rewrite bool_decide_eq_false_2 by assumption. simpl.
    split; [intros [b Hb]; discriminate | congruence].
Qed.

(** X23. The password a candidate types reaches the gate trimmed, and
    nothing is sent for a blank input: on an assessment with a secret the
    page is let in exactly when the trimmed input is the secret. A secret
    that begins or ends with white space, which the assessment form
    stores as typed, therefore lets no candidate in through the page. *)
Theorem typed_password_is_trimmed id d a secret :
  getAssessment id d = Some a ->
  a_password a = Some secret -> secret <> EmptyString ->
  (forall typed,
     (exists b, handlePasswordSubmit id typed d = Some (Json 200 b)) <->
     JS.trim typed = secret) /\
  (JS.trim secret <> secret ->
   forall typed b, handlePasswordSubmit id typed d <> Some (Json 200 b)).
Proof.
  intros Ha Hp Hne.
  assert (Hiff : forall typed,
            (exists b, handlePasswordSubmit id typed d = Some (Json 200 b)) <->
            JS.trim typed = secret).
  { intros typed. unfold handlePasswordSubmit, getAssessmentForCandidate.
    destruct (JS.truthy_string (JS.trim typed)) eqn:Ht.
    - unfold JS.or_undefined. rewrite Ht.
      pose proof (get_take_secret id d a secret (Some (JS.trim typed)) Ha Hp Hne) as Hg.
      split.
      + intros [b [= Hb]].
        assert (Some (JS.trim typed) = Some secret) as [= Heq] by (apply Hg; eauto).
        exact Heq.
      + intros Heq. destruct (proj2 Hg) as [b Hb]; [now rewrite Heq|].
        exists b. now rewrite Hb.
    - apply truthy_string_false in Ht. split.
      + intros [b Hb]. discriminate.
      + intros H. congruence. }
  split; [exact Hiff|].
  intros Hs typed b Hb. apply Hs.
  assert (Ht : JS.trim typed = secret) by (apply Hiff; eauto).
  rewrite <- Ht. apply trim_twice.
Qed.

(** A secret typed with a leading space into the assessment form. *)
Lemma typed_password_is_trimmed_witness :
  let d := db [q1] (quiz ["1"] 70 (Some " abc")) in
  handlePasswordSubmit "10" " abc" d = Some (Error 401 "Password required" true) /\
  (forall typed b, handlePasswordSubmit "10" typed d <> Some (Json 200 b)).
Proof.
  intros d. split; [reflexivity|].
  apply (typed_password_is_trimmed "10" d (quiz ["1"] 70 (Some " abc")) " abc");
    [reflexivity | reflexivity | discriminate | vm_compute; discriminate].
Defined.

Lemma truthy_trim s : JS.truthy_string (JS.trim s) = negb (whitespace_only s).
Proof.
  destruct (whitespace_only s) eqn:Hw.
  - apply trim_empty in Hw. now rewrite Hw.
  - destruct (JS.truthy_string (JS.trim s)) eqn:Ht; [reflexivity|].
    apply truthy_string_false, trim_empty in Ht. congruence.
Qed.

(** X24. The candidate page sends nothing while the e-mail is blank, and
    what it sends otherwise is never refused for its e-mail: against a
    stored assessment the submission is stored with the trimmed e-mail,
    the answers of the page and the id of the assessment. *)
Theorem candidate_page_submit e id email answers w a :
  id <> EmptyString ->
  getAssessment id (data w) = Some a ->
  (whitespace_only email = true -> submitAnswers e (Some id) email answers w = None) /\
  (whitespace_only email = false ->
   exists r s,
     submitAnswers e (Some id) email answers w = Some r /\
     fst r <> Error 400 "Candidate email is required" false /\
     submissions (data (snd r)) = (submissions (data w) ++ [s])%list /\
     s_candidateEmail s = JS.trim email /\
     s_answers s = answers /\
     s_assessmentId s = id).
Proof.
  intros Hid Ha. unfold submitAnswers.
  assert (Hi : JS.truthy_string id = true).
  { unfold JS.truthy_string. apply negb_true_iff. now apply String.eqb_neq. }
  rewrite Hi, truthy_trim. split; [now intros ->|].
  intros Hw. rewrite Hw. simpl. unfold submitAssessment.
  set (body := mkSubmissionRequest (Some (JS.trim email)) (Some answers)).
  assert (Hb : ~ blank_email body).
  { rewrite blank_email_trim. unfold body, email_of. rewrite or_string_empty. simpl.
    rewrite trim_twice, trim_empty. congruence. }
  eexists _, (submitted e id body (data w) a). split; [reflexivity|].
  split; [|split; [now apply post_submit_stored|]].
  - rewrite (post_submit_accepted _ _ _ _ _ Ha Hb). simpl.
    destruct (fs_ok e); discriminate.
  - unfold submitted, newSubmission, grade, body, email_of.
    cbn [s_candidateEmail s_answers s_assessmentId sd_candidateEmail sd_answers
         sd_assessmentId body_candidateEmail].
    rewrite or_string_empty. simpl. split; [apply trim_twice|]. split; reflexivity.
Qed.

Lemma candidate_page_submit_witness :
  let w := world [q1; q2] (quiz ["1"; "2"] 70 None) in
  submitAnswers (env true) (Some "10") "   " (handleAnswerChange "1" 1 ∅) w = None /\
  exists r s,
    submitAnswers (env true) (Some "10") " a@b.c " (handleAnswerChange "1" 1 ∅) w = Some r /\
    submissions (data (snd r)) = [s] /\ s_candidateEmail s = "a@b.c".
Proof.
  intros w.
  destruct (candidate_page_submit (env true) "10" "   " (handleAnswerChange "1" 1 ∅) w
              (quiz ["1"; "2"] 70 None)) as [Hnone _]; [discriminate | reflexivity |].
  destruct (candidate_page_submit (env true) "10" " a@b.c " (handleAnswerChange "1" 1 ∅) w
              (quiz ["1"; "2"] 70 None)) as [_ Hsome]; [discriminate | reflexivity |].
  split; [apply Hnone; reflexivity|].
  destruct (Hsome eq_refl) as (r & s & Hr & _ & Hs & He & _).
  exists r, s. split; [exact Hr|]. split; [exact Hs|]. rewrite He. reflexivity.
Defined.

End Candidate.

(* ===================================================================== *)
(** ** Listings and statistics *)
(* ===================================================================== *)

Section Listings.
Import JSONDatabase Server Client Sample.

Lemma filter_all {A} (P : A -> Prop) `{!forall x, Decision (P x)} (l : list A) :
  Forall P l -> filter P l = l.
Proof.
  induction 1 as [|x l Hx _ IH]; [reflexivity|].
  now rewrite filter_cons, decide_True, IH.
Qed.

(** X25. While every stored submission belongs to one stored assessment,
    the dashboard statistics and the results of that assessment show the
    same number of submissions, the same average score and the same pass
    rate. *)
Theorem stats_agree_with_results id d a :
  getAssessment id d = Some a ->
  Forall (fun s => s_assessmentId s = id) (submissions d) ->
  exists st,
    get_results id d = Json 200 (a, st) /\
    get_stats d = Json 200 (getStats d) /\
    rs_totalSubmissions st = st_totalSubmissions (getStats d) /\
    rs_averageScore st = st_averageScore (getStats d) /\
    rs_passRate st = st_passRate (getStats d) /\
    st_totalQuestions (getStats d) = length (questions d) /\
    st_totalAssessments (getStats d) = length (assessments d).
Proof.
  intros Ha Hall. unfold get_results. rewrite Ha. eexists.
  split; [reflexivity|]. split; [reflexivity|]. simpl.
  unfold getSubmissionsByAssessment. rewrite (filter_all _ _ Hall).
  repeat split.
Qed.

Lemma stats_agree_with_results_witness :
  let a := quiz ["1"; "2"] 70 None in
  let d := data (calls (world [q1; q2] a)
                   [PostSubmit (env true) "10" (request "a@b.c" [("1", 1); ("2", 0)]);
                    PostSubmit (env true) "10" (request "c@d.e" [("1", 0)])]) in
  exists st,
    get_results "10" d = Json 200 (a, st) /\
    rs_totalSubmissions st = 2%nat /\ rs_averageScore st = 50 /\ rs_passRate st = 50 /\
    st_averageScore (getStats d) = 50.
Proof.
  intros a d.
  destruct (stats_agree_with_results "10" d a) as (st & Hr & _ & Hn & Ha & Hp & _).
  - reflexivity.
  - repeat constructor.
  - exists st. split; [exact Hr|]. rewrite Hn, Ha, Hp.
    repeat split; vm_compute; reflexivity.
Defined.

(** X26. When an assessment is created with a password that is not
    empty and the write succeeds, the reply leaves the password out,
    whereas the list of assessments returns the stored record, password
    included, as its last entry, to any caller. The results route for
    the new id returns that record too, provided no earlier assessment
    has the id (an id is the millisecond of the creation, and of two
    assessments with one id the route finds the earlier). *)
Theorem created_secret_is_listed e body w secret :
  body_password body = Some secret -> secret <> EmptyString ->
  fs_ok e = true ->
  let w' := snd (post_assessment e body w) in
  exists reply stored listed,
    fst (post_assessment e body w) = Json 201 reply /\ a_password reply = None /\
    get_assessments (data w') = Json 200 listed /\
    last listed = Some stored /\ a_id stored = a_id reply /\
    a_password stored = Some secret /\
    (JS.toString (now e) ∉ a_id <$> assessments (data w) ->
     exists st, get_results (a_id reply) (data w') = Json 200 (stored, st)).
Proof.
  intros Hp Hne Hok w'. subst w'. rewrite post_assessment_eval, Hok. simpl.
  assert (Hpw : JS.or_undefined (body_password body) = Some secret).
  { rewrite Hp. unfold JS.or_undefined, JS.truthy_string.
    apply String.eqb_neq in Hne. now rewrite Hne. }
  eexists _, (newAssessment e (assessment_data body)), _.
  split; [reflexivity|]. split; [reflexivity|].
  split; [reflexivity|]. split; [apply last_snoc|].
  split; [reflexivity|]. split; [exact Hpw|].
  intros Hfresh.
  unfold get_results, getAssessment; simpl.
  assert (Hfind : find (fun a => bool_decide (a_id a = JS.toString (now e)))
                    (assessments (data w) ++ [newAssessment e (assessment_data body)])
                  = Some (newAssessment e (assessment_data body))).
  { clear Hpw. induction (assessments (data w)) as [|x l IH]; simpl.
    - now rewrite bool_decide_eq_true_2.
    - rewrite fmap_cons, not_elem_of_cons in Hfresh. destruct Hfresh as [Hx Hl].
      rewrite bool_decide_eq_false_2 by congruence. now apply IH. }
  rewrite Hfind. eauto.
Qed.

Lemma created_secret_is_listed_witness :
  let body := mkAssessmentCreateRequest (Some "Quiz") None (Some ["1"]) None None
                (Some "abc123") in
  let w' := snd (post_assessment (env true) body empty_world) in
  exists listed stored st,
    get_assessments (data w') = Json 200 listed /\
    last listed = Some stored /\ a_password stored = Some "abc123" /\
    get_results "1700000000000" (data w') = Json 200 (stored, st).
Proof.
  intros body w'.
  destruct (created_secret_is_listed (env true) body empty_world "abc123")
    as (reply & stored & listed & Hr & _ & Hl & Hlast & _ & Hpw & Hres).
  - reflexivity.
  - discriminate.
  - reflexivity.
  - destruct Hres as [st Hst]; [vm_compute; apply not_elem_of_nil|].
    exists listed, stored, st. split; [exact Hl|]. split; [exact Hlast|].
    split; [exact Hpw|].
    vm_compute in Hr. injection Hr as <-. exact Hst.
Defined.

(** The theorems without premise at their head, at sample data. *)
Lemma delete_challenge_no_cascade_witness :
  let w := snd (post_submit (env true) "10" (request "a@b.c" [("1", 1)])
                  (world [q1; q2] (quiz ["1"; "2"] 70 None))) in
  let w' := snd (delete_challenge (env true) "1" w) in
  assessments (data w') = assessments (data w) /\
  submissions (data w') = submissions (data w) /\
  delete_challenge (env true) "7" w = (Error 404 "Question not found" false, w).
Proof.
  intros w w'.
  pose proof (delete_challenge_no_cascade (env true) "1" w) as (Ha & Hs & _).
  pose proof (delete_challenge_no_cascade (env true) "7" w) as (_ & _ & _ & _ & Hm).
  split; [exact Ha|]. split; [exact Hs|]. apply Hm. reflexivity.
Defined.

Lemma post_assessment_normalises_witness :
  let body := mkAssessmentCreateRequest None None None (Some 0) (Some 0) (Some EmptyString) in
  exists a,
    fst (post_assessment (env true) body empty_world) = Json 201 a /\
    a_timeLimit a = 30 /\ a_passingScore a = 70 /\ a_password a = None /\
    a_selectedChallenges a = [].
Proof.
  intros body.
  pose proof (post_assessment_normalises (env true) body empty_world)
    as (_ & Hr & _ & Hsel & Ht & Hp & Hpw & _).
  eexists. split; [apply Hr; reflexivity|]. simpl. repeat split.
Defined.

Lemma get_results_stats_witness :
  get_results "11" (db [q1] (quiz ["1"] 70 None)) = Error 404 "Assessment not found" false /\
  exists st,
    get_results "10" (db [q1] (quiz ["1"] 70 None)) = Json 200 (quiz ["1"] 70 None, st) /\
    rs_averageScore st = 0 /\ rs_passRate st = 0.
Proof.
  pose proof (get_results_stats "11" (db [q1] (quiz ["1"] 70 None))) as [H404 _].
  pose proof (get_results_stats "10" (db [q1] (quiz ["1"] 70 None))) as [_ H200].
  split; [apply H404; reflexivity|].
  destruct (H200 (quiz ["1"] 70 None) eq_refl) as (st & Hr & Hs & _ & _ & Hz).
  exists st. split; [exact Hr|]. apply Hz. rewrite Hs. reflexivity.
Defined.

End Listings.
